(** * Iridescence: render-surface lifecycle and animation scheduler

    A shallow embedding of the [Iridescence] React component
    (the effect body of [useEffect] with its inner functions [resize],
    [handleResize], [update], [handleMouseMove] and the cleanup it returns),
    followed by the properties of the frame gate, the pointer filter, the
    resize path and its debounce, the pointer throttle, the teardown, and of
    the effect over its runs.

    Numbers.  JavaScript numbers are idealised as exact rationals ([Q]):
    binary64 rounding, the float32 storage of [uMouse] and the integer
    coercion of [canvas.width] are not modelled.  Equalities between computed
    numbers are therefore stated with [==] ([Qeq]) unless both sides are the
    very same expression.  Division by zero yields [0] in [Q] where
    JavaScript yields [NaN] or [Infinity]; statements that divide carry the
    positivity of the divisor as a hypothesis.

    Host.  The browser (animation frames, timers, listeners, the DOM node of
    the canvas, the GL context) is modelled by a record [Host] that keeps what
    is currently registered together with a log of the calls made, in the
    order they were made. *)

From Stdlib Require Import QArith Qround Qabs Qpower Lqa ZArith Lia List Sorted Bool String.
Import ListNotations.
Open Scope Q_scope.

(* ================================================================== *)
(** ** Numbers *)

Module Num.

(** [a < b] on JavaScript numbers, as a boolean. *)
Definition ltb (a b : Q) : bool := negb (Qle_bool b a).

(** Truncation toward zero. *)
Definition trunc (q : Q) : Z := Z.quot (Qnum q) (Zpos (Qden q)).

(** The JavaScript remainder [a % b]: [a - b * trunc (a / b)], which takes
    the sign of the dividend. *)
Definition rem (a b : Q) : Q := a - b * inject_Z (trunc (a / b)).

(** [Math.min]. *)
Definition min (a b : Q) : Q := if ltb b a then b else a.

End Num.

(* ================================================================== *)
(** ** Constants of the module *)

Definition TARGET_FPS : Q := 30.
Definition FRAME_DURATION : Q := 1000 / TARGET_FPS.
Definition MOUSE_THROTTLE : Q := 50.

(* ================================================================== *)
(** ** Data *)

(** [{ x, y }] as held by the two refs, and the two cells of [uMouse]. *)
Record Point := mkPoint { pt_x : Q; pt_y : Q }.

(** ogl's [Color], a triple of numbers. *)
Record Color := mkColor { c_r : Q; c_g : Q; c_b : Q }.

(** [program.uniforms], the [value] of each entry. *)
Record Uniforms := mkUniforms {
  uTime : Q;
  uColor : Color;
  uResolution : Color;
  uMouse : Point;
  uAmplitude : Q;
  uSpeed : Q
}.

(** The props the effect depends on. *)
Record Props := mkProps {
  color : Color;
  speed : Q;
  amplitude : Q;
  mouseReact : bool
}.

Definition defaultProps : Props :=
  mkProps (mkColor 1 1 1) 1.0 0.1 true.

(** [DOMRect] returned by [ctn.getBoundingClientRect()]. *)
Record Rect := mkRect {
  rect_left : Q; rect_top : Q; rect_width : Q; rect_height : Q
}.

(** [MouseEvent], the two fields that are read. *)
Record MouseEvent := mkMouseEvent { clientX : Q; clientY : Q }.

(** Calls made to the host, logged in order. *)
Inductive HostCall :=
| NewRenderer (dpr : Q)
| AddResizeListener
| SetSize (w h : Q)
| NewProgram
| RequestAnimationFrame (id : nat)
| AppendChild
| AddMouseMoveListener
| SetTimeout (id : nat)
| ClearTimeout (id : option nat)
| Render (u : Uniforms)
| CancelAnimationFrame (id : option nat)
| RemoveResizeListener
| RemoveMouseMoveListener
| RemoveChild
| LoseContext.

(** The host environment. *)
Record Host := mkHost {
  devicePixelRatio : Q;            (* window.devicePixelRatio *)
  offsetWidth : Q;                 (* ctn.offsetWidth *)
  offsetHeight : Q;                (* ctn.offsetHeight *)
  rafPending : list nat;           (* animation-frame requests not yet run *)
  rafNext : nat;                   (* next request id *)
  timeouts : list nat;             (* timers not yet fired *)
  timeoutNext : nat;               (* next timer id *)
  resizeListener : bool;           (* handleResize registered on window *)
  mouseMoveListener : bool;        (* handleMouseMove registered on ctn *)
  canvasParent : bool;             (* gl.canvas.parentNode is ctn *)
  canvasWidth : Q;                 (* gl.canvas.width *)
  canvasHeight : Q;                (* gl.canvas.height *)
  canvasStyleWidth : string;       (* gl.canvas.style.width *)
  canvasStyleHeight : string;      (* gl.canvas.style.height *)
  loseContextExt : bool;           (* gl.getExtension('WEBGL_lose_context') is not null *)
  contextLost : bool;              (* the GL context has been released *)
  log : list HostCall
}.

(** The variables the effect body closes over. *)
Record Closure := mkClosure {
  props : Props;
  renderer_dpr : Q;                (* renderer.dpr *)
  program : option Uniforms;       (* let program *)
  resizeTimeout : option nat;      (* let resizeTimeout *)
  animateId : option nat;          (* let animateId *)
  lastFrameTime : Q;               (* let lastFrameTime = 0 *)
  lastMouseUpdate : Q              (* let lastMouseUpdate = 0 *)
}.

(** One running effect: the two refs of the component, the closure of the
    effect run, and the host. *)
Record State := mkState {
  mousePos : Point;                (* mousePos.current *)
  targetMousePos : Point;          (* targetMousePos.current *)
  env : Closure;
  host : Host
}.

(* ------------------------------------------------------------------ *)
(** *** Field updates *)

Definition with_host (f : Host -> Host) (s : State) : State :=
  mkState (mousePos s) (targetMousePos s) (env s) (f (host s)).

Definition with_env (f : Closure -> Closure) (s : State) : State :=
  mkState (mousePos s) (targetMousePos s) (f (env s)) (host s).

Definition set_mousePos (p : Point) (s : State) : State :=
  mkState p (targetMousePos s) (env s) (host s).

Definition set_targetMousePos (p : Point) (s : State) : State :=
  mkState (mousePos s) p (env s) (host s).

Definition set_program (p : option Uniforms) (c : Closure) : Closure :=
  mkClosure (props c) (renderer_dpr c) p (resizeTimeout c) (animateId c)
            (lastFrameTime c) (lastMouseUpdate c).

Definition set_resizeTimeout (i : option nat) (c : Closure) : Closure :=
  mkClosure (props c) (renderer_dpr c) (program c) i (animateId c)
            (lastFrameTime c) (lastMouseUpdate c).

Definition set_animateId (i : option nat) (c : Closure) : Closure :=
  mkClosure (props c) (renderer_dpr c) (program c) (resizeTimeout c) i
            (lastFrameTime c) (lastMouseUpdate c).

Definition set_lastFrameTime (t : Q) (c : Closure) : Closure :=
  mkClosure (props c) (renderer_dpr c) (program c) (resizeTimeout c)
            (animateId c) t (lastMouseUpdate c).

Definition set_lastMouseUpdate (t : Q) (c : Closure) : Closure :=
  mkClosure (props c) (renderer_dpr c) (program c) (resizeTimeout c)
            (animateId c) (lastFrameTime c) t.

Definition set_raf (pending : list nat) (next : nat) (h : Host) : Host :=
  mkHost (devicePixelRatio h) (offsetWidth h) (offsetHeight h)
         pending next (timeouts h) (timeoutNext h)
         (resizeListener h) (mouseMoveListener h) (canvasParent h)
         (canvasWidth h) (canvasHeight h)
         (canvasStyleWidth h) (canvasStyleHeight h) (loseContextExt h)
         (contextLost h) (log h).

Definition set_timeouts (pending : list nat) (next : nat) (h : Host) : Host :=
  mkHost (devicePixelRatio h) (offsetWidth h) (offsetHeight h)
         (rafPending h) (rafNext h) pending next
         (resizeListener h) (mouseMoveListener h) (canvasParent h)
         (canvasWidth h) (canvasHeight h)
         (canvasStyleWidth h) (canvasStyleHeight h) (loseContextExt h)
         (contextLost h) (log h).

Definition set_resizeListener (b : bool) (h : Host) : Host :=
  mkHost (devicePixelRatio h) (offsetWidth h) (offsetHeight h)
         (rafPending h) (rafNext h) (timeouts h) (timeoutNext h)
         b (mouseMoveListener h) (canvasParent h)
         (canvasWidth h) (canvasHeight h)
         (canvasStyleWidth h) (canvasStyleHeight h) (loseContextExt h)
         (contextLost h) (log h).

Definition set_mouseMoveListener (b : bool) (h : Host) : Host :=
  mkHost (devicePixelRatio h) (offsetWidth h) (offsetHeight h)
         (rafPending h) (rafNext h) (timeouts h) (timeoutNext h)
         (resizeListener h) b (canvasParent h)
         (canvasWidth h) (canvasHeight h)
         (canvasStyleWidth h) (canvasStyleHeight h) (loseContextExt h)
         (contextLost h) (log h).

Definition set_canvasParent (b : bool) (h : Host) : Host :=
  mkHost (devicePixelRatio h) (offsetWidth h) (offsetHeight h)
         (rafPending h) (rafNext h) (timeouts h) (timeoutNext h)
         (resizeListener h) (mouseMoveListener h) b
         (canvasWidth h) (canvasHeight h)
         (canvasStyleWidth h) (canvasStyleHeight h) (loseContextExt h)
         (contextLost h) (log h).

Definition set_canvasSize (w hh : Q) (h : Host) : Host :=
  mkHost (devicePixelRatio h) (offsetWidth h) (offsetHeight h)
         (rafPending h) (rafNext h) (timeouts h) (timeoutNext h)
         (resizeListener h) (mouseMoveListener h) (canvasParent h)
         w hh
         (canvasStyleWidth h) (canvasStyleHeight h) (loseContextExt h)
         (contextLost h) (log h).

Definition set_canvasStyle (w hh : string) (h : Host) : Host :=
  mkHost (devicePixelRatio h) (offsetWidth h) (offsetHeight h)
         (rafPending h) (rafNext h) (timeouts h) (timeoutNext h)
         (resizeListener h) (mouseMoveListener h) (canvasParent h)
         (canvasWidth h) (canvasHeight h)
         w hh (loseContextExt h) (contextLost h) (log h).

Definition set_contextLost (b : bool) (h : Host) : Host :=
  mkHost (devicePixelRatio h) (offsetWidth h) (offsetHeight h)
         (rafPending h) (rafNext h) (timeouts h) (timeoutNext h)
         (resizeListener h) (mouseMoveListener h) (canvasParent h)
         (canvasWidth h) (canvasHeight h)
         (canvasStyleWidth h) (canvasStyleHeight h) (loseContextExt h) b (log h).

Definition set_box (w hh : Q) (h : Host) : Host :=
  mkHost (devicePixelRatio h) w hh
         (rafPending h) (rafNext h) (timeouts h) (timeoutNext h)
         (resizeListener h) (mouseMoveListener h) (canvasParent h)
         (canvasWidth h) (canvasHeight h)
         (canvasStyleWidth h) (canvasStyleHeight h) (loseContextExt h)
         (contextLost h) (log h).

Definition logged (c : HostCall) (h : Host) : Host :=
  mkHost (devicePixelRatio h) (offsetWidth h) (offsetHeight h)
         (rafPending h) (rafNext h) (timeouts h) (timeoutNext h)
         (resizeListener h) (mouseMoveListener h) (canvasParent h)
         (canvasWidth h) (canvasHeight h)
         (canvasStyleWidth h) (canvasStyleHeight h) (loseContextExt h)
         (contextLost h)
         (log h ++ [c]).

Definition set_uResolution (c : Color) (u : Uniforms) : Uniforms :=
  mkUniforms (uTime u) (uColor u) c (uMouse u) (uAmplitude u) (uSpeed u).

Definition set_uMouse (p : Point) (u : Uniforms) : Uniforms :=
  mkUniforms (uTime u) (uColor u) (uResolution u) p (uAmplitude u) (uSpeed u).

Definition set_uTime (t : Q) (u : Uniforms) : Uniforms :=
  mkUniforms t (uColor u) (uResolution u) (uMouse u) (uAmplitude u) (uSpeed u).

(* ================================================================== *)
(** ** Host primitives *)

Definition remove_id (id : nat) (l : list nat) : list nat :=
  filter (fun j => negb (Nat.eqb j id)) l.

(** [requestAnimationFrame(update)]: a fresh id, now pending. *)
Definition requestAnimationFrame (h : Host) : nat * Host :=
  let id := rafNext h in
  (id, logged (RequestAnimationFrame id)
         (set_raf (rafPending h ++ [id]) (S id) h)).

(** [cancelAnimationFrame(id)]: nothing happens for an id that is not
    pending, or for [undefined]. *)
Definition cancelAnimationFrame (id : option nat) (h : Host) : Host :=
  logged (CancelAnimationFrame id)
    match id with
    | Some i => set_raf (remove_id i (rafPending h)) (rafNext h) h
    | None => h
    end.

(** [window.setTimeout(resize, 100)]. *)
Definition setTimeout (h : Host) : nat * Host :=
  let id := timeoutNext h in
  (id, logged (SetTimeout id)
         (set_timeouts (timeouts h ++ [id]) (S id) h)).

(** [clearTimeout(id)]: nothing happens for an id that is not pending, or
    for [undefined]. *)
Definition clearTimeout (id : option nat) (h : Host) : Host :=
  logged (ClearTimeout id)
    match id with
    | Some i => set_timeouts (remove_id i (timeouts h)) (timeoutNext h) h
    | None => h
    end.

Definition addResizeListener (h : Host) : Host :=
  logged AddResizeListener (set_resizeListener true h).

Definition removeResizeListener (h : Host) : Host :=
  logged RemoveResizeListener (set_resizeListener false h).

Definition addMouseMoveListener (h : Host) : Host :=
  logged AddMouseMoveListener (set_mouseMoveListener true h).

Definition removeMouseMoveListener (h : Host) : Host :=
  logged RemoveMouseMoveListener (set_mouseMoveListener false h).

(** [ctn.appendChild(gl.canvas)]. *)
Definition appendChild (h : Host) : Host :=
  logged AppendChild (set_canvasParent true h).

(** [ctn.removeChild(gl.canvas)] throws [NotFoundError] when the canvas is
    not a child of [ctn].  The canvas is created by the effect and attached
    by it to [ctn] only; a canvas moved under another node by other code,
    where the guard [gl.canvas.parentNode] of the cleanup would pass and
    [removeChild] throw, is outside the model. *)
Definition removeChild (h : Host) : option Host :=
  if canvasParent h
  then Some (logged RemoveChild (set_canvasParent false h))
  else None.

(** [gl.getExtension('WEBGL_lose_context')?.loseContext()]. *)
Definition loseContext (h : Host) : Host :=
  if loseContextExt h
  then logged LoseContext (set_contextLost true h)
  else h.

(** [new Renderer({ dpr, antialias: false, powerPreference: 'low-power' })]
    makes a new canvas, not attached, with a live context.  Its size before
    the first [setSize] is never read by the component. *)
Definition newRenderer (dpr : Q) (h : Host) : Host :=
  logged (NewRenderer dpr)
    (set_contextLost false
      (set_canvasStyle "" ""
        (set_canvasSize 300 150
          (set_canvasParent false h)))).

(** Modelled from the spec: ogl's [Renderer.setSize] is a dependency that is
    not part of the sources.  Section 6 has the drawable node "sized to
    container's box with DPR cap 1.5 and render-scale 0.5": the backing store
    of the canvas is the requested size times the renderer's pixel ratio. *)
Definition setSize (dpr w hh : Q) (h : Host) : Host :=
  logged (SetSize w hh) (set_canvasSize (w * dpr) (hh * dpr) h).

(** [renderer.render({ scene: mesh })]: one draw call with the uniforms as
    they are at the call. *)
Definition render (u : Uniforms) (h : Host) : Host :=
  logged (Render u) h.

(* ================================================================== *)
(** ** The effect body *)

(** [function resize()]. *)
Definition resize (s : State) : State :=
  let scale := 0.5 in
  let s := with_host (setSize (renderer_dpr (env s))
                              (offsetWidth (host s) * scale)
                              (offsetHeight (host s) * scale)) s in
  let s := with_host (set_canvasStyle "100%" "100%") s in
  match program (env s) with
  | Some u =>
      let res := mkColor (canvasWidth (host s)) (canvasHeight (host s))
                         (canvasWidth (host s) / canvasHeight (host s)) in
      with_env (set_program (Some (set_uResolution res u))) s
  | None => s
  end.

(** [function handleResize()]. *)
Definition handleResize (s : State) : State :=
  let s := with_host (clearTimeout (resizeTimeout (env s))) s in
  let '(id, h) := setTimeout (host s) in
  with_env (set_resizeTimeout (Some id)) (with_host (fun _ => h) s).

(** [function update(t)].  [None] is the [TypeError] of reading
    [program.uniforms] while [program] is [undefined]. *)
Definition update (t : Q) (s : State) : option State :=
  let '(id, h) := requestAnimationFrame (host s) in
  let s := with_env (set_animateId (Some id)) (with_host (fun _ => h) s) in
  let elapsed := t - lastFrameTime (env s) in
  if Num.ltb elapsed FRAME_DURATION then Some s else
  let s := with_env (set_lastFrameTime (t - Num.rem elapsed FRAME_DURATION)) s in
  let lerpFactor := 0.1 in
  let s := set_mousePos
             (mkPoint (pt_x (mousePos s)
                       + (pt_x (targetMousePos s) - pt_x (mousePos s)) * lerpFactor)
                      (pt_y (mousePos s))) s in
  let s := set_mousePos
             (mkPoint (pt_x (mousePos s))
                      (pt_y (mousePos s)
                       + (pt_y (targetMousePos s) - pt_y (mousePos s)) * lerpFactor)) s in
  match program (env s) with
  | None => None
  | Some u =>
      let u := set_uMouse (mkPoint (pt_x (mousePos s)) (pt_y (uMouse u))) u in
      let u := set_uMouse (mkPoint (pt_x (uMouse u)) (pt_y (mousePos s))) u in
      let u := set_uTime (t * 0.001) u in
      let s := with_env (set_program (Some u)) s in
      Some (with_host (render u) s)
  end.

(** [function handleMouseMove(e)]; [now] is what [performance.now()] returns
    and [rect] what [ctn.getBoundingClientRect()] returns. *)
Definition handleMouseMove (now : Q) (rect : Rect) (e : MouseEvent)
    (s : State) : State :=
  if Num.ltb (now - lastMouseUpdate (env s)) MOUSE_THROTTLE then s else
  let s := with_env (set_lastMouseUpdate now) s in
  let x := (clientX e - rect_left rect) / rect_width rect in
  let y := 1.0 - (clientY e - rect_top rect) / rect_height rect in
  set_targetMousePos (mkPoint x y) s.

(** The effect body up to and including the first [resize()], that is before
    [program] is assigned.  The container ref is taken to be attached. *)
Definition mount_surface (p : Props) (mp tp : Point) (h : Host) : State :=
  let dpr := Num.min (devicePixelRatio h) 1.5 in
  let h := newRenderer dpr h in
  let s := mkState mp tp (mkClosure p dpr None None None 0 0) h in
  let s := with_host addResizeListener s in
  resize s.

(** [program = new Program(gl, { ..., uniforms })]. *)
Definition newProgram (s : State) : State :=
  let u := mkUniforms 0 (color (props (env s)))
             (mkColor (canvasWidth (host s)) (canvasHeight (host s))
                      (canvasWidth (host s) / canvasHeight (host s)))
             (mkPoint (pt_x (mousePos s)) (pt_y (mousePos s)))
             (amplitude (props (env s))) (speed (props (env s))) in
  with_env (set_program (Some u)) (with_host (logged NewProgram) s).

(** The whole effect body; the cleanup it returns is [teardown]. *)
Definition mount (p : Props) (mp tp : Point) (h : Host) : State :=
  let s := mount_surface p mp tp h in
  let s := newProgram s in
  let '(id, h) := requestAnimationFrame (host s) in
  let s := with_env (set_animateId (Some id)) (with_host (fun _ => h) s) in
  let s := with_host appendChild s in
  if mouseReact p then with_host addMouseMoveListener s else s.

(** The cleanup function.  [None] is an exception thrown by a host call. *)
Definition teardown (s : State) : option State :=
  let s := with_host (cancelAnimationFrame (animateId (env s))) s in
  let s := with_host (clearTimeout (resizeTimeout (env s))) s in
  let s := with_host removeResizeListener s in
  let s := if mouseReact (props (env s))
           then with_host removeMouseMoveListener s else s in
  match (if canvasParent (host s)
         then option_map (fun h => with_host (fun _ => h) s) (removeChild (host s))
         else Some s) with
  | None => None
  | Some s => Some (with_host loseContext s)
  end.

(* ================================================================== *)
(** ** The host drives the effect *)

(** What the host can do to a running effect.  Each constructor carries what
    the host supplies to the callback. *)
Inductive Event :=
| Frame (t : Q)                    (* an animation frame, timestamp [t] *)
| Resized (w h : Q)                (* the container box becomes [w] by [h]
                                      and window fires 'resize' *)
| TimerFired                       (* a pending timer runs its callback *)
| MouseMoved (now : Q) (rect : Rect) (e : MouseEvent).

(** A callback runs only while it is registered: the oldest pending
    animation-frame request or timer is consumed and its callback ([update],
    respectively [resize]) is run; listeners run if still registered. *)
Definition dispatch (ev : Event) (s : State) : option State :=
  match ev with
  | Frame t =>
      match rafPending (host s) with
      | [] => Some s
      | _ :: rest =>
          update t (with_host (fun h => set_raf rest (rafNext h) h) s)
      end
  | Resized w hh =>
      let s := with_host (set_box w hh) s in
      if resizeListener (host s) then Some (handleResize s) else Some s
  | TimerFired =>
      match timeouts (host s) with
      | [] => Some s
      | _ :: rest =>
          Some (resize (with_host (fun h => set_timeouts rest (timeoutNext h) h) s))
      end
  | MouseMoved now rect e =>
      if mouseMoveListener (host s)
      then Some (handleMouseMove now rect e s) else Some s
  end.

Fixpoint run (evs : list Event) (s : State) : option State :=
  match evs with
  | [] => Some s
  | ev :: evs' =>
      match dispatch ev s with
      | Some s' => run evs' s'
      | None => None
      end
  end.

(** The effect runs again when a dependency changes: the cleanup of the
    previous run, then the body with the new props.  The two refs are
    created by [useRef] in the component body, so they are the same objects
    in both runs. *)
Definition rerun (p : Props) (s : State) : option State :=
  match teardown s with
  | Some s' => Some (mount p (mousePos s') (targetMousePos s') (host s'))
  | None => None
  end.

(** The refs as [useRef({ x: 0.5, y: 0.5 })] creates them. *)
Definition centre : Point := mkPoint 0.5 0.5.

(** The first run of the effect of a freshly mounted component. *)
Definition firstMount (p : Props) (h : Host) : State :=
  mount p centre centre h.

(** A host on which nothing is registered: device pixel ratio [r], container
    box [w] by [hh]. *)
Definition idleHost (r w hh : Q) : Host :=
  mkHost r w hh [] 0 [] 0 false false false 300 150 "" "" true false [].

(* ------------------------------------------------------------------ *)
(** *** Observations on the log *)

Definition isRender (c : HostCall) : bool :=
  match c with Render _ => true | _ => false end.

(** The uniforms of each draw call, oldest first. *)
Fixpoint draws (l : list HostCall) : list Uniforms :=
  match l with
  | [] => []
  | Render u :: l' => u :: draws l'
  | _ :: l' => draws l'
  end.

Definition drawCount (s : State) : nat := List.length (draws (log (host s))).

(** The timestamps, among the callbacks [ts] delivered in order, whose
    callback issued a draw. *)
Fixpoint drawnAt (ts : list Q) (s : State) : list Q :=
  match ts with
  | [] => []
  | t :: ts' =>
      match dispatch (Frame t) s with
      | None => []
      | Some s' =>
          (if Nat.ltb (drawCount s) (drawCount s') then [t] else [])
            ++ drawnAt ts' s'
      end
  end.

Inductive Resource :=
| GLContext | ResizeListener | AnimationFrame | CanvasNode
| MouseMoveListener | Timer.

Definition acquires (c : HostCall) : option Resource :=
  match c with
  | NewRenderer _ => Some GLContext
  | AddResizeListener => Some ResizeListener
  | RequestAnimationFrame _ => Some AnimationFrame
  | AppendChild => Some CanvasNode
  | AddMouseMoveListener => Some MouseMoveListener
  | SetTimeout _ => Some Timer
  | _ => None
  end.

Definition releases (c : HostCall) : option Resource :=
  match c with
  | LoseContext => Some GLContext
  | RemoveResizeListener => Some ResizeListener
  | CancelAnimationFrame _ => Some AnimationFrame
  | RemoveChild => Some CanvasNode
  | RemoveMouseMoveListener => Some MouseMoveListener
  | ClearTimeout _ => Some Timer
  | _ => None
  end.

Fixpoint pick {A B} (f : A -> option B) (l : list A) : list B :=
  match l with
  | [] => []
  | a :: l' => match f a with Some b => b :: pick f l' | None => pick f l' end
  end.

(** Nothing of the effect is left registered on the host. *)
Definition released (h : Host) : Prop :=
  rafPending h = [] /\ timeouts h = [] /\
  resizeListener h = false /\ mouseMoveListener h = false /\
  canvasParent h = false.

(** What holds of a running effect between two callbacks: the program
    exists; at most one animation-frame request is pending, the one whose id
    is in [animateId]; at most one timer is pending, the one whose id is in
    [resizeTimeout]; the pointer listener is registered only if [mouseReact]
    is set. *)
Record Inv (s : State) : Prop := mkInv {
  inv_program : program (env s) <> None;
  inv_raf : rafPending (host s) = [] \/
            exists i, rafPending (host s) = [i] /\ animateId (env s) = Some i;
  inv_timer : timeouts (host s) = [] \/
              exists i, timeouts (host s) = [i] /\ resizeTimeout (env s) = Some i;
  inv_mouse : mouseMoveListener (host s) = true -> mouseReact (props (env s)) = true
}.

(* ================================================================== *)
(** ** Notions used in the statements *)

(** The state after the first line of [update] alone: the next callback is
    requested and its id stored; nothing else differs. *)
Definition rescheduled (s : State) : State :=
  with_env (set_animateId (Some (rafNext (host s))))
           (with_host (fun h => snd (requestAnimationFrame h)) s).

(** One step of the pointer filter on a coordinate. *)
Definition lerp (current target : Q) : Q := current + (target - current) * 0.1.

(** The gate alone, as a function of [lastFrameTime] and the timestamps of the
    callbacks: the timestamps that pass.  It is related to the component by
    [drawnAt_gate] below. *)
Fixpoint gateTrace (last : Q) (ts : list Q) : list Q :=
  match ts with
  | [] => []
  | t :: ts' =>
      if Num.ltb (t - last) FRAME_DURATION
      then gateTrace last ts'
      else t :: gateTrace (t - Num.rem (t - last) FRAME_DURATION) ts'
  end.

(** The running example: first mount with the default props on a host with
    device pixel ratio 1 and an 800 by 600 container. *)
Definition s800 : State := firstMount defaultProps (idleHost 1 800 600).

(** [0.9 ^ n]. *)
Definition decay (n : nat) : Q := 0.9 ^ Z.of_nat n.

(** How a coordinate [c'] stands to the coordinate [c] it started from after
    [n] filter steps toward [t]: the distance is [0.9 ^ n] times what it was,
    the coordinate stays between its start and the target, and from a
    distance of at most 1 it is within 0.001 after 66 steps. *)
Definition tracks (n : nat) (c c' t : Q) : Prop :=
  c' - t == 0.9 ^ Z.of_nat n * (c - t) /\
  Qabs (c' - t) == 0.9 ^ Z.of_nat n * Qabs (c - t) /\
  (n = 1%nat -> c' == c + (t - c) * 0.1) /\
  (c <= t -> c <= c' /\ c' <= t) /\
  (t <= c -> t <= c' /\ c' <= c) /\
  ((66 <= n)%nat -> Qabs (c - t) <= 1 -> Qabs (c' - t) < 0.001).

(** A state whose target differs from the current position: the pointer has
    moved to the lower left quarter of the container. *)
Definition sMoved : State :=
  handleMouseMove 100 (mkRect 0 0 800 600) (mkMouseEvent 200 450) s800.

(** [q] is a whole number. *)
Definition whole (q : Q) : Prop := inject_Z (Qfloor q) == q.

(** [uResolution] of the program, when there is one. *)
Definition resolution (s : State) : option Color :=
  option_map uResolution (program (env s)).

(** The calls the cleanup makes, in order; which of the guarded ones are made
    depends on the state. *)
Definition teardownCalls (s : State) : list HostCall :=
  [CancelAnimationFrame (animateId (env s));
   ClearTimeout (resizeTimeout (env s));
   RemoveResizeListener]
  ++ (if mouseReact (props (env s)) then [RemoveMouseMoveListener] else [])
  ++ (if canvasParent (host s) then [RemoveChild] else [])
  ++ (if loseContextExt (host s) then [LoseContext] else []).

Definition isTimer (r : Resource) : bool :=
  match r with Timer => true | _ => false end.

(** The uniforms of a draw call have the pointer at the centre. *)
Definition centred (u : Uniforms) : Prop :=
  pt_x (uMouse u) == 0.5 /\ pt_y (uMouse u) == 0.5.

Definition isSetSize (c : HostCall) : bool :=
  match c with SetSize _ _ => true | _ => false end.

(** The times, among the pointer events [l] handled in order, at which
    [handleMouseMove] took the event, seen by [lastMouseUpdate] moving. *)
Fixpoint acceptedAt (l : list (Q * Rect * MouseEvent)) (s : State) : list Q :=
  match l with
  | [] => []
  | (now, rect, e) :: l' =>
      let s' := handleMouseMove now rect e s in
      (if Qeq_bool (lastMouseUpdate (env s')) (lastMouseUpdate (env s))
       then [] else [now])
        ++ acceptedAt l' s'
  end.

Definition inUnit (p : Point) : Prop :=
  (0 <= pt_x p /\ pt_x p <= 1) /\ (0 <= pt_y p /\ pt_y p <= 1).

(** The pointer event lies within the rectangle the container reports, and
    that rectangle has a positive size. *)
Definition insideContainer (ev : Event) : Prop :=
  match ev with
  | MouseMoved _ rect e =>
      0 < rect_width rect /\ 0 < rect_height rect /\
      rect_left rect <= clientX e /\ clientX e <= rect_left rect + rect_width rect /\
      rect_top rect <= clientY e /\ clientY e <= rect_top rect + rect_height rect
  | _ => True
  end.

(** The uniforms of a draw agree with the props [p], and the third
    component of the resolution is the quotient of the first two. *)
Definition faithful (p : Props) (u : Uniforms) : Prop :=
  uColor u = color p /\ uAmplitude u = amplitude p /\ uSpeed u = speed p /\
  c_b (uResolution u) = c_r (uResolution u) / c_g (uResolution u).

(** The effect is running with props [p]. *)
Definition Running (p : Props) (s : State) : Prop :=
  (exists i, rafPending (host s) = [i] /\ animateId (env s) = Some i) /\
  (timeouts (host s) = [] \/
   exists i, timeouts (host s) = [i] /\ resizeTimeout (env s) = Some i) /\
  resizeListener (host s) = true /\
  mouseMoveListener (host s) = mouseReact p /\
  canvasParent (host s) = true /\
  contextLost (host s) = false /\
  program (env s) <> None /\
  props (env s) = p.


(* ================================================================== *)
(** * Properties *)

(** Unfolding of the record plumbing, without touching the numbers. *)
Ltac plumb :=
  cbn [mousePos targetMousePos env host
       props renderer_dpr program resizeTimeout animateId lastFrameTime
       lastMouseUpdate
       devicePixelRatio offsetWidth offsetHeight rafPending rafNext timeouts
       timeoutNext resizeListener mouseMoveListener canvasParent canvasWidth
       canvasHeight canvasStyleWidth canvasStyleHeight loseContextExt
       contextLost log
       with_host with_env set_mousePos set_targetMousePos set_program
       set_resizeTimeout set_animateId set_lastFrameTime set_lastMouseUpdate
       set_raf set_timeouts set_resizeListener set_mouseMoveListener
       set_canvasParent set_canvasSize set_canvasStyle set_contextLost set_box
       logged requestAnimationFrame cancelAnimationFrame setTimeout
       clearTimeout addResizeListener removeResizeListener
       addMouseMoveListener removeMouseMoveListener appendChild loseContext
       newRenderer setSize render newProgram fst snd] in *.

(** ** Arithmetic of the embedding *)

Lemma ltb_lt (a b : Q) : Num.ltb a b = true <-> a < b.
Proof.
  unfold Num.ltb. rewrite negb_true_iff.
  split; intro H.
  - apply Qnot_le_lt. intro Hle. apply Qle_bool_iff in Hle. congruence.
  - destruct (Qle_bool b a) eqn:E; [|reflexivity].
    apply Qle_bool_iff in E. exfalso. apply (Qlt_not_le _ _ H E).
Qed.

Lemma ltb_ge (a b : Q) : Num.ltb a b = false <-> b <= a.
Proof.
  split; intro H.
  - apply Qnot_lt_le. intro Hlt. apply ltb_lt in Hlt. congruence.
  - destruct (Num.ltb a b) eqn:E; [|reflexivity].
    apply ltb_lt in E. exfalso. apply (Qlt_not_le _ _ E H).
Qed.

Lemma FRAME_DURATION_pos : 0 < FRAME_DURATION.
Proof. reflexivity. Qed.

(* ================================================================== *)
(** ** The frame gate of [update] *)

Lemma rescheduled_log (s : State) :
  log (host (rescheduled s))
  = log (host s) ++ [RequestAnimationFrame (rafNext (host s))].
Proof. reflexivity. Qed.

Lemma draws_app (l1 l2 : list HostCall) : draws (l1 ++ l2) = draws l1 ++ draws l2.
Proof.
  induction l1 as [|c l1 IH]; simpl; [reflexivity|].
  destruct c; simpl; rewrite ?IH; reflexivity.
Qed.

Lemma update_skip (t : Q) (s : State) :
  t - lastFrameTime (env s) < FRAME_DURATION ->
  update t s = Some (rescheduled s).
Proof.
  intro H. apply ltb_lt in H. unfold update, rescheduled. simpl.
  now rewrite H.
Qed.

Lemma update_draw (t : Q) (s : State) (u : Uniforms) :
  program (env s) = Some u ->
  ~ t - lastFrameTime (env s) < FRAME_DURATION ->
  let mp := mkPoint (lerp (pt_x (mousePos s)) (pt_x (targetMousePos s)))
                    (lerp (pt_y (mousePos s)) (pt_y (targetMousePos s))) in
  let u' := set_uTime (t * 0.001) (set_uMouse mp u) in
  update t s =
  Some (with_host (render u')
         (with_env (set_program (Some u'))
           (set_mousePos mp
             (with_env (set_lastFrameTime
                          (t - Num.rem (t - lastFrameTime (env s)) FRAME_DURATION))
                       (rescheduled s))))).
Proof.
  intros Hp H. assert (E : Num.ltb (t - lastFrameTime (env s)) FRAME_DURATION = false).
  { apply ltb_ge. now apply Qnot_lt_le. }
  unfold update, rescheduled. simpl. rewrite E. simpl. rewrite Hp. reflexivity.
Qed.

(** C1.  The callback [update t], run while the program exists.  When
    [t - lastFrameTime < FRAME_DURATION] the frame is skipped: the next
    callback is requested, nothing is drawn and nothing else changes.
    Otherwise the frame is rendered: [lastFrameTime] becomes
    [t - ((t - lastFrameTime) % FRAME_DURATION)], each coordinate of
    [mousePos] takes one filter step toward [targetMousePos], [uMouse] receives
    the new [mousePos], [uTime] receives [t * 0.001], which is [t / 1000], and
    the log grows by the request of the next callback and exactly one draw
    call.  At [t = 1000] the rendered frame has [uTime] equal to 1. *)
Theorem update_frame_gate (t : Q) (s : State) (u : Uniforms)
    (Hprog : program (env s) = Some u) :
  (t - lastFrameTime (env s) < FRAME_DURATION ->
     update t s = Some (rescheduled s) /\
     mousePos (rescheduled s) = mousePos s /\
     targetMousePos (rescheduled s) = targetMousePos s /\
     env (rescheduled s) = set_animateId (Some (rafNext (host s))) (env s) /\
     log (host (rescheduled s))
       = log (host s) ++ [RequestAnimationFrame (rafNext (host s))] /\
     drawCount (rescheduled s) = drawCount s)
  /\
  (~ t - lastFrameTime (env s) < FRAME_DURATION ->
     exists s' u',
       update t s = Some s' /\
       program (env s') = Some u' /\
       lastFrameTime (env s')
         = t - Num.rem (t - lastFrameTime (env s)) FRAME_DURATION /\
       pt_x (mousePos s')
         = pt_x (mousePos s) + (pt_x (targetMousePos s) - pt_x (mousePos s)) * 0.1 /\
       pt_y (mousePos s')
         = pt_y (mousePos s) + (pt_y (targetMousePos s) - pt_y (mousePos s)) * 0.1 /\
       targetMousePos s' = targetMousePos s /\
       uMouse u' = mousePos s' /\
       uTime u' = t * 0.001 /\ uTime u' == t / 1000 /\
       (t == 1000 -> uTime u' == 1) /\
       uColor u' = uColor u /\ uResolution u' = uResolution u /\
       uAmplitude u' = uAmplitude u /\ uSpeed u' = uSpeed u /\
       log (host s')
         = log (host s) ++ [RequestAnimationFrame (rafNext (host s)); Render u'] /\
       drawCount s' = S (drawCount s)).
Proof.
  split; intro H.
  - rewrite (update_skip _ _ H). repeat split.
    unfold drawCount. rewrite rescheduled_log, draws_app. simpl.
    now rewrite app_nil_r.
  - rewrite (update_draw _ _ _ Hprog H). eexists. eexists.
    split; [reflexivity|]. simpl.
    repeat split.
    + intro Ht. cbn [uTime set_uTime]. rewrite Ht. reflexivity.
    + now rewrite <- app_assoc.
    + unfold drawCount. simpl. rewrite !draws_app. simpl.
      rewrite app_nil_r, length_app. simpl. lia.
Qed.

(* ================================================================== *)
(** ** Which callbacks draw *)

Lemma drawCount_rescheduled (s : State) : drawCount (rescheduled s) = drawCount s.
Proof.
  unfold drawCount. rewrite rescheduled_log, draws_app. simpl.
  now rewrite app_nil_r.
Qed.

Lemma drawnAt_gate (ts : list Q) :
  forall s, program (env s) <> None -> rafPending (host s) <> [] ->
  drawnAt ts s = gateTrace (lastFrameTime (env s)) ts.
Proof.
  induction ts as [|t ts IH]; intros s Hp Hr; [reflexivity|].
  destruct (program (env s)) as [u|] eqn:Eu; [clear Hp | congruence].
  destruct (rafPending (host s)) as [|i rest] eqn:Er; [congruence | clear Hr].
  cbn [drawnAt gateTrace dispatch]. rewrite Er.
  set (s1 := with_host (fun h => set_raf rest (rafNext h) h) s).
  assert (Eu1 : program (env s1) = Some u) by exact Eu.
  assert (Ec : drawCount s1 = drawCount s) by reflexivity.
  assert (El : lastFrameTime (env s1) = lastFrameTime (env s)) by reflexivity.
  destruct (Num.ltb (t - lastFrameTime (env s)) FRAME_DURATION) eqn:E.
  - apply ltb_lt in E. rewrite <- El in E.
    rewrite (update_skip _ _ E).
    rewrite drawCount_rescheduled, Ec, Nat.ltb_irrefl. simpl.
    change (lastFrameTime (env s)) with (lastFrameTime (env (rescheduled s1))).
    apply IH; simpl; [congruence|].
    destruct rest; discriminate.
  - apply ltb_ge in E. rewrite <- El in E. apply Qle_not_lt in E.
    rewrite (update_draw _ _ _ Eu1 E).
    match goal with |- context [drawnAt ts ?x] => set (s' := x) end.
    assert (Hc : drawCount s' = S (drawCount s)).
    { unfold s', drawCount, rescheduled. plumb. rewrite !draws_app. simpl.
      rewrite ?app_nil_r, ?length_app. simpl. lia. }
    rewrite Hc.
    replace (Nat.ltb (drawCount s) (S (drawCount s))) with true
      by (symmetry; apply Nat.ltb_lt; lia).
    simpl. f_equal.
    change (t - Num.rem (t - lastFrameTime (env s)) FRAME_DURATION)
      with (lastFrameTime (env s')).
    apply IH.
    + discriminate.
    + unfold s', rescheduled. plumb. destruct rest; discriminate.
Qed.

Lemma mount_program (p : Props) (mp tp : Point) (h : Host) :
  program (env (mount p mp tp h)) <> None.
Proof. unfold mount. destruct (mouseReact p); plumb; discriminate. Qed.

Lemma mount_pending (p : Props) (mp tp : Point) (h : Host) :
  rafPending (host (mount p mp tp h)) <> [].
Proof.
  unfold mount, mount_surface, resize.
  destruct (mouseReact p); plumb; destruct (rafPending h); discriminate.
Qed.

Lemma mount_lastFrameTime (p : Props) (mp tp : Point) (h : Host) :
  lastFrameTime (env (mount p mp tp h)) = 0.
Proof.
  unfold mount, mount_surface, resize.
  destruct (mouseReact p); plumb; reflexivity.
Qed.

Lemma update_frame_gate_witness :
  update 10 s800 = Some (rescheduled s800) /\
  exists s' u',
    update 1000 s800 = Some s' /\ program (env s') = Some u' /\ uTime u' == 1.
Proof.
  destruct (program (env s800)) as [u|] eqn:E; [|vm_compute in E; discriminate].
  split.
  - apply (update_frame_gate 10 s800 u E). vm_compute. reflexivity.
  - destruct (proj2 (update_frame_gate 1000 s800 u E)) as (s' & u' & H).
    + vm_compute. discriminate.
    + destruct H as (H1 & H2 & _ & _ & _ & _ & _ & _ & _ & H3 & _).
      exists s', u'. split; [exact H1 | split; [exact H2 | apply H3; reflexivity]].
Defined.

(** The remainder of a non-negative number by a positive one is at most the
    number. *)
Lemma rem_le (a b : Q) : 0 <= a -> 0 < b -> Num.rem a b <= a.
Proof.
  intros Ha Hb. unfold Num.rem.
  assert (Hq : 0 <= a / b).
  { apply Qle_shift_div_l; [exact Hb | now rewrite Qmult_0_l]. }
  assert (Ht : (0 <= Num.trunc (a / b))%Z).
  { destruct (a / b) as [n d]. unfold Qle in Hq. simpl in Hq.
    unfold Num.trunc. simpl. apply Z.quot_pos; lia. }
  assert (Hi : 0 <= inject_Z (Num.trunc (a / b))).
  { change 0 with (inject_Z 0). now rewrite <- Zle_Qle. }
  nra.
Qed.

(** The gate never lets [lastFrameTime] fall, so every timestamp that passes
    is at least one frame duration after the [lastFrameTime] it started
    from. *)
Lemma gateTrace_after (ts : list Q) :
  forall last,
  Forall (fun t => last + FRAME_DURATION <= t) (gateTrace last ts).
Proof.
  induction ts as [|t ts IH]; intro last; simpl; [constructor|].
  destruct (Num.ltb (t - last) FRAME_DURATION) eqn:E; [apply IH|].
  apply ltb_ge in E. pose proof FRAME_DURATION_pos as HF.
  constructor; [lra|].
  assert (H0 : 0 <= t - last) by lra.
  pose proof (rem_le (t - last) FRAME_DURATION H0 HF) as Hr.
  eapply Forall_impl; [|apply IH]. cbn beta. intros t' Ht'. lra.
Qed.

(** C2, as the code has it.  For every sequence of animation callbacks given
    to a freshly run effect, a callback draws only when at least one frame
    duration lies between it and [lastFrameTime], which starts at 0 and never
    falls: no callback stamped before the first frame duration draws.  Of the
    callbacks at 0, 10, 20, 30 and 40 ms exactly one draws, the one at 40 ms,
    and so none in [[0, 40)]. *)
Theorem first_draw_after_one_interval (p : Props) (mp tp : Point) (h : Host)
    (ts : list Q) :
  Forall (fun t => FRAME_DURATION <= t) (drawnAt ts (mount p mp tp h)) /\
  drawnAt [0; 10; 20; 30; 40] (mount p mp tp h) = [40] /\
  filter (fun t => Num.ltb t 40) (drawnAt [0; 10; 20; 30; 40] (mount p mp tp h))
    = [].
Proof.
  assert (G : forall l, drawnAt l (mount p mp tp h) = gateTrace 0 l).
  { intro l. rewrite drawnAt_gate by (apply mount_program || apply mount_pending).
    now rewrite mount_lastFrameTime. }
  rewrite !G. split; [|split; reflexivity].
  eapply Forall_impl; [|apply (gateTrace_after ts 0)].
  cbn beta. intros t Ht. lra.
Qed.

(** C2 as stated fails: of the callbacks at 0, 10, 20, 30 and 40 ms none that
    lies in [[0, 40)] draws, since [lastFrameTime] starts at 0 and the first
    33.3 ms are skipped. *)
Lemma no_draw_before_40 :
  List.length (filter (fun t => Num.ltb t 40)
                      (drawnAt [0; 10; 20; 30; 40] s800)) <> 1%nat.
Proof. vm_compute. discriminate. Qed.

(** Nor is there at most one draw in every span of one frame duration: the
    clock carries the remainder over, so two callbacks one millisecond apart
    can both draw. *)
Example draws_one_ms_apart :
  drawnAt [66; 67] s800 = [66; 67] /\ 67 - 66 < FRAME_DURATION.
Proof. split; vm_compute; reflexivity. Qed.

(* ================================================================== *)
(** ** The pointer filter *)

Lemma decay_S (n : nat) : decay (S n) == 0.9 * decay n.
Proof.
  unfold decay. rewrite Nat2Z.inj_succ. unfold Z.succ.
  rewrite Qpower_plus by discriminate. simpl (0.9 ^ 1). ring.
Qed.

Lemma decay_pos (n : nat) : 0 < decay n.
Proof.
  induction n as [|n IH]; [reflexivity|]. rewrite decay_S. lra.
Qed.

Lemma decay_le (n m : nat) : (n <= m)%nat -> decay m <= decay n.
Proof.
  induction 1 as [|m Hle IH]; [lra|].
  rewrite decay_S. pose proof (decay_pos m). lra.
Qed.

Lemma decay_le_1 (n : nat) : decay n <= 1.
Proof. apply (decay_le 0 n). lia. Qed.

Lemma decay_66 : decay 66 < 0.001.
Proof. vm_compute. reflexivity. Qed.

Lemma lerp_decay (c t : Q) : lerp c t - t == 0.9 * (c - t).
Proof. unfold lerp. ring. Qed.

(** What one animation frame does to the refs: nothing, or one filter
    step. *)
Lemma dispatch_frame_filter (t : Q) (s : State) :
  program (env s) <> None ->
  exists s',
    dispatch (Frame t) s = Some s' /\
    program (env s') <> None /\
    targetMousePos s' = targetMousePos s /\
    ((drawCount s' = drawCount s /\ mousePos s' = mousePos s) \/
     (drawCount s' = S (drawCount s) /\
      pt_x (mousePos s') = lerp (pt_x (mousePos s)) (pt_x (targetMousePos s)) /\
      pt_y (mousePos s') = lerp (pt_y (mousePos s)) (pt_y (targetMousePos s)))).
Proof.
  intro Hp. destruct (program (env s)) as [u|] eqn:Eu; [clear Hp|congruence].
  cbn [dispatch].
  destruct (rafPending (host s)) as [|i rest] eqn:Er.
  - exists s. rewrite Eu. repeat split; [discriminate | now left].
  - set (s1 := with_host (fun h => set_raf rest (rafNext h) h) s).
    assert (Eu1 : program (env s1) = Some u) by exact Eu.
    destruct (Qlt_le_dec (t - lastFrameTime (env s1)) FRAME_DURATION) as [H|H].
    + rewrite (update_skip _ _ H). exists (rescheduled s1).
      repeat split; [cbn; rewrite Eu; discriminate|].
      left. split; [rewrite drawCount_rescheduled; reflexivity | reflexivity].
    + apply Qle_not_lt in H. rewrite (update_draw _ _ _ Eu1 H).
      eexists. split; [reflexivity|]. plumb.
      repeat split; [discriminate|]. right. repeat split.
      unfold drawCount. plumb. rewrite !draws_app. simpl.
      rewrite ?app_nil_r, ?length_app, ?draws_app. simpl.
      rewrite ?app_nil_r. lia.
Qed.

Lemma run_frames_filter (ts : list Q) :
  forall s, program (env s) <> None ->
  exists s',
    run (map Frame ts) s = Some s' /\
    program (env s') <> None /\
    targetMousePos s' = targetMousePos s /\
    (drawCount s <= drawCount s')%nat /\
    pt_x (mousePos s') - pt_x (targetMousePos s)
      == decay (drawCount s' - drawCount s)
         * (pt_x (mousePos s) - pt_x (targetMousePos s)) /\
    pt_y (mousePos s') - pt_y (targetMousePos s)
      == decay (drawCount s' - drawCount s)
         * (pt_y (mousePos s) - pt_y (targetMousePos s)).
Proof.
  induction ts as [|t ts IH]; intros s Hp.
  - exists s. rewrite Nat.sub_diag. repeat split; auto.
    all: change (decay 0) with 1; ring.
  - destruct (dispatch_frame_filter t s Hp) as (s1 & Hd & Hp1 & Ht1 & Hc).
    destruct (IH s1 Hp1) as (s' & Hr & Hp' & Ht' & Hle & Hx & Hy).
    exists s'. cbn [map run]. rewrite Hd, Hr.
    rewrite Ht1 in *.
    destruct Hc as [[Hc Hm] | (Hc & Hmx & Hmy)].
    + rewrite Hc, Hm in *. repeat split; auto.
    + rewrite Hc in *.
      replace (drawCount s' - drawCount s)%nat
        with (S (drawCount s' - S (drawCount s))) by lia.
      repeat split; auto; try lia.
      * rewrite Hx, Hmx, lerp_decay, decay_S. ring.
      * rewrite Hy, Hmy, lerp_decay, decay_S. ring.
Qed.

Lemma decay_tracks (n : nat) (c c' t : Q) :
  c' - t == decay n * (c - t) -> tracks n c c' t.
Proof.
  intro H. pose proof (decay_pos n) as Hpos. pose proof (decay_le_1 n) as H1.
  fold (decay n).
  assert (Habs : Qabs (c' - t) == decay n * Qabs (c - t)).
  { rewrite H, Qabs_Qmult, (Qabs_pos (decay n)); [reflexivity | lra]. }
  repeat split.
  - exact H.
  - exact Habs.
  - intros ->. rewrite decay_S in H. change (decay 0) with 1 in H. lra.
  - nra.
  - nra.
  - nra.
  - nra.
  - intros Hn Hd. rewrite Habs.
    pose proof (decay_le 66 n Hn). pose proof decay_66.
    pose proof (Qabs_nonneg (c - t)). nra.
Qed.

(** C3.  Over any run of animation frames with no pointer event in between,
    [targetMousePos] is unchanged and, with [n] the number of frames that were
    drawn, each coordinate of [mousePos] has taken [n] steps
    [current += (target - current) * 0.1]: its distance to the target is
    [0.9 ^ n] times the initial one, it never passes the target, and from a
    distance of at most 1 it is within 0.001 of the target once 66 frames
    were drawn. *)
Theorem pointer_filter_converges (s : State) (ts : list Q)
    (Hprog : program (env s) <> None) :
  exists s',
    run (map Frame ts) s = Some s' /\
    targetMousePos s' = targetMousePos s /\
    (drawCount s <= drawCount s')%nat /\
    tracks (drawCount s' - drawCount s)
           (pt_x (mousePos s)) (pt_x (mousePos s')) (pt_x (targetMousePos s)) /\
    tracks (drawCount s' - drawCount s)
           (pt_y (mousePos s)) (pt_y (mousePos s')) (pt_y (targetMousePos s)).
Proof.
  destruct (run_frames_filter ts s Hprog) as (s' & Hr & _ & Ht & Hle & Hx & Hy).
  exists s'.
  split; [exact Hr | split; [exact Ht | split; [exact Hle |]]].
  split; apply decay_tracks; assumption.
Qed.

Lemma pointer_filter_converges_witness :
  program (env sMoved) <> None /\
  exists s',
    run (map Frame [40; 50; 80]) sMoved = Some s' /\
    targetMousePos s' = targetMousePos sMoved /\
    (drawCount sMoved <= drawCount s')%nat /\
    tracks (drawCount s' - drawCount sMoved)
           (pt_x (mousePos sMoved)) (pt_x (mousePos s'))
           (pt_x (targetMousePos sMoved)) /\
    tracks (drawCount s' - drawCount sMoved)
           (pt_y (mousePos sMoved)) (pt_y (mousePos s'))
           (pt_y (targetMousePos sMoved)).
Proof.
  assert (H : program (env sMoved) <> None) by (vm_compute; discriminate).
  split; [exact H | exact (pointer_filter_converges sMoved [40; 50; 80] H)].
Defined.

(* ================================================================== *)
(** ** The pointer handler *)

Lemma handleMouseMove_drop (now : Q) (rect : Rect) (e : MouseEvent) (s : State) :
  now - lastMouseUpdate (env s) < MOUSE_THROTTLE ->
  handleMouseMove now rect e s = s.
Proof. intro H. apply ltb_lt in H. unfold handleMouseMove. now rewrite H. Qed.

Lemma handleMouseMove_accept (now : Q) (rect : Rect) (e : MouseEvent) (s : State) :
  ~ now - lastMouseUpdate (env s) < MOUSE_THROTTLE ->
  handleMouseMove now rect e s
  = set_targetMousePos
      (mkPoint ((clientX e - rect_left rect) / rect_width rect)
               (1.0 - (clientY e - rect_top rect) / rect_height rect))
      (with_env (set_lastMouseUpdate now) s).
Proof.
  intro H. apply Qnot_lt_le, ltb_ge in H. unfold handleMouseMove. now rewrite H.
Qed.

(** C6, as the code has it.  An event that arrives less than 50 ms after
    the last accepted one (or after time 0, where [lastMouseUpdate] starts)
    changes nothing at all: it is dropped, not kept for later.  So when an
    event at [now] is accepted, a second one [d1 < 50] ms later (10 ms, say)
    leaves the target set by the first, and a third one [d2 >= 50] ms after
    the first (60 ms, say) sets the target again. *)
Theorem mouse_throttle (s : State) (now d1 d2 : Q) (r1 r2 r3 : Rect)
    (e1 e2 e3 : MouseEvent)
    (Hacc : ~ now - lastMouseUpdate (env s) < MOUSE_THROTTLE)
    (Hd1 : 0 <= d1 /\ d1 < MOUSE_THROTTLE) (Hd2 : MOUSE_THROTTLE <= d2) :
  let s1 := handleMouseMove now r1 e1 s in
  let s2 := handleMouseMove (now + d1) r2 e2 s1 in
  let s3 := handleMouseMove (now + d2) r3 e3 s2 in
  (forall s0 now0 r e,
      now0 - lastMouseUpdate (env s0) < MOUSE_THROTTLE ->
      handleMouseMove now0 r e s0 = s0) /\
  lastMouseUpdate (env s1) = now /\
  targetMousePos s1
    = mkPoint ((clientX e1 - rect_left r1) / rect_width r1)
              (1.0 - (clientY e1 - rect_top r1) / rect_height r1) /\
  s2 = s1 /\
  lastMouseUpdate (env s3) = now + d2 /\
  targetMousePos s3
    = mkPoint ((clientX e3 - rect_left r3) / rect_width r3)
              (1.0 - (clientY e3 - rect_top r3) / rect_height r3).
Proof.
  intros s1 s2 s3.
  assert (E1 : s1 = set_targetMousePos
      (mkPoint ((clientX e1 - rect_left r1) / rect_width r1)
               (1.0 - (clientY e1 - rect_top r1) / rect_height r1))
      (with_env (set_lastMouseUpdate now) s))
    by (apply handleMouseMove_accept; exact Hacc).
  assert (L1 : lastMouseUpdate (env s1) = now) by (rewrite E1; reflexivity).
  assert (E2 : s2 = s1).
  { apply handleMouseMove_drop. rewrite L1. lra. }
  assert (E3 : s3 = set_targetMousePos
      (mkPoint ((clientX e3 - rect_left r3) / rect_width r3)
               (1.0 - (clientY e3 - rect_top r3) / rect_height r3))
      (with_env (set_lastMouseUpdate (now + d2)) s2)).
  { apply handleMouseMove_accept. rewrite E2, L1. lra. }
  split; [intros; now apply handleMouseMove_drop|].
  rewrite E3. split; [exact L1|]. split; [rewrite E1; reflexivity|].
  repeat split. exact E2.
Qed.

Lemma mouse_throttle_witness :
  let r := mkRect 0 0 800 600 in
  let s1 := handleMouseMove 100 r (mkMouseEvent 200 450) s800 in
  let s2 := handleMouseMove (100 + 10) r (mkMouseEvent 400 300) s1 in
  let s3 := handleMouseMove (100 + 60) r (mkMouseEvent 600 150) s2 in
  s2 = s1 /\ lastMouseUpdate (env s3) = 100 + 60 /\
  targetMousePos s3 = mkPoint ((600 - 0) / 800) (1.0 - (150 - 0) / 600).
Proof.
  intros r s1 s2 s3.
  assert (Hacc : ~ 100 - lastMouseUpdate (env s800) < MOUSE_THROTTLE)
    by (vm_compute; discriminate).
  assert (Hd1 : 0 <= 10 /\ 10 < MOUSE_THROTTLE)
    by (split; vm_compute; [discriminate | reflexivity]).
  assert (Hd2 : MOUSE_THROTTLE <= 60) by (vm_compute; discriminate).
  destruct (mouse_throttle s800 100 10 60 r r r (mkMouseEvent 200 450)
              (mkMouseEvent 400 300) (mkMouseEvent 600 150) Hacc Hd1 Hd2)
    as (_ & _ & _ & H2 & H3 & H4).
  split; [exact H2 | split; [exact H3 | exact H4]].
Defined.

(** C6 as stated fails when the first of the two events is itself dropped:
    [lastMouseUpdate] starts at 0, so of two events 10 ms apart at 45 and
    55 ms the first leaves the target alone and the second sets it. *)
Lemma first_of_two_dropped :
  let r := mkRect 0 0 800 600 in
  let s1 := handleMouseMove 45 r (mkMouseEvent 200 450) s800 in
  let s2 := handleMouseMove 55 r (mkMouseEvent 600 150) s1 in
  targetMousePos s1 = targetMousePos s800 /\
  targetMousePos s2 = mkPoint ((600 - 0) / 800) (1.0 - (150 - 0) / 600) /\
  targetMousePos s2 <> targetMousePos s1.
Proof.
  cbv zeta. split; [vm_compute; reflexivity|].
  split; [vm_compute; reflexivity|]. vm_compute. discriminate.
Qed.

(** C7.  An accepted pointer event stores as the new target the point
    [x = (clientX - rect.left) / rect.width],
    [y = 1 - (clientY - rect.top) / rect.height], and leaves the current
    position alone.  An event at the container-relative position
    (0.25, 0.75) gives the target (0.25, 0.25). *)
Theorem mouse_target_normalised (now : Q) (rect : Rect) (e : MouseEvent)
    (s : State)
    (Hacc : ~ now - lastMouseUpdate (env s) < MOUSE_THROTTLE)
    (Hw : 0 < rect_width rect) (Hh : 0 < rect_height rect) :
  let s' := handleMouseMove now rect e s in
  pt_x (targetMousePos s') = (clientX e - rect_left rect) / rect_width rect /\
  pt_y (targetMousePos s')
    == 1 - (clientY e - rect_top rect) / rect_height rect /\
  mousePos s' = mousePos s /\
  lastMouseUpdate (env s') = now /\
  (clientX e - rect_left rect == 0.25 * rect_width rect ->
   clientY e - rect_top rect == 0.75 * rect_height rect ->
   pt_x (targetMousePos s') == 0.25 /\ pt_y (targetMousePos s') == 0.25).
Proof.
  intro s'. unfold s'. rewrite (handleMouseMove_accept _ _ _ _ Hacc).
  cbn [targetMousePos set_targetMousePos pt_x pt_y mousePos with_env env
       lastMouseUpdate set_lastMouseUpdate].
  repeat split.
  - apply Qminus_comp; reflexivity.
  - rewrite H. field. lra.
  - rewrite H0. field. lra.
Qed.

Lemma mouse_target_normalised_witness :
  let s' := handleMouseMove 100 (mkRect 0 0 800 600) (mkMouseEvent 200 450) s800 in
  pt_x (targetMousePos s') == 0.25 /\ pt_y (targetMousePos s') == 0.25.
Proof.
  intro s'.
  assert (Hacc : ~ 100 - lastMouseUpdate (env s800) < MOUSE_THROTTLE)
    by (vm_compute; discriminate).
  assert (Hw : 0 < rect_width (mkRect 0 0 800 600)) by reflexivity.
  assert (Hh : 0 < rect_height (mkRect 0 0 800 600)) by reflexivity.
  destruct (mouse_target_normalised 100 (mkRect 0 0 800 600)
              (mkMouseEvent 200 450) s800 Hacc Hw Hh) as (_ & _ & _ & _ & H).
  apply H; reflexivity.
Defined.

(* ================================================================== *)
(** ** The resize path *)

Lemma resize_without_program (s : State) :
  program (env s) = None ->
  resize s
  = with_host (fun h =>
      set_canvasStyle "100%" "100%"
        (setSize (renderer_dpr (env s)) (offsetWidth h * 0.5)
                 (offsetHeight h * 0.5) h)) s.
Proof. intro H. unfold resize. plumb. rewrite H. reflexivity. Qed.

Lemma resize_with_program (s : State) (u : Uniforms) :
  program (env s) = Some u ->
  let cw := offsetWidth (host s) * 0.5 * renderer_dpr (env s) in
  let ch := offsetHeight (host s) * 0.5 * renderer_dpr (env s) in
  resize s
  = with_env (set_program (Some (set_uResolution (mkColor cw ch (cw / ch)) u)))
      (with_host (fun h =>
         set_canvasStyle "100%" "100%"
           (setSize (renderer_dpr (env s)) (offsetWidth h * 0.5)
                    (offsetHeight h * 0.5) h)) s).
Proof. intro H. unfold resize. plumb. rewrite H. reflexivity. Qed.

(** C5, as the code has it.  A resize that runs once the program exists asks
    the renderer, whose pixel ratio [dpr] is [min(devicePixelRatio, 1.5)],
    for the container box times 0.5, and writes what it reads back from the
    canvas: [uResolution = (canvas.width, canvas.height,
    canvas.width / canvas.height)].  So the third component always is the
    quotient of the canvas sides of the resize last applied.  When the box
    times 0.5 times [dpr] gives whole numbers, for a box of non-negative
    width and positive height, the canvas has exactly that size and the
    third component equals [offsetWidth / offsetHeight]; the first two are
    the box times 0.5 when moreover [dpr] is 1.  After the mount on an 800 by
    600 container at device pixel ratio 1 the resolution is
    (400, 300, 4/3). *)
Theorem resize_resolution (s : State) (u : Uniforms)
    (Hprog : program (env s) = Some u) :
  let w := offsetWidth (host s) in
  let h := offsetHeight (host s) in
  let dpr := renderer_dpr (env s) in
  (exists u',
     program (env (resize s)) = Some u' /\
     log (host (resize s)) = log (host s) ++ [SetSize (w * 0.5) (h * 0.5)] /\
     uResolution u'
       = mkColor (canvasWidth (host (resize s))) (canvasHeight (host (resize s)))
           (canvasWidth (host (resize s)) / canvasHeight (host (resize s))) /\
     (whole (w * 0.5 * dpr) -> whole (h * 0.5 * dpr) ->
      0 <= w -> 0 < h -> 0 < dpr ->
      canvasWidth (host (resize s)) = w * 0.5 * dpr /\
      canvasHeight (host (resize s)) = h * 0.5 * dpr /\
      c_b (uResolution u') == w / h /\
      (dpr == 1 ->
       c_r (uResolution u') == w * 0.5 /\ c_g (uResolution u') == h * 0.5))) /\
  (forall p mp tp h0,
     renderer_dpr (env (mount p mp tp h0)) = Num.min (devicePixelRatio h0) 1.5) /\
  (exists u0,
     program (env s800) = Some u0 /\
     c_r (uResolution u0) == 400 /\ c_g (uResolution u0) == 300 /\
     c_b (uResolution u0) == 4 / 3).
Proof.
  intros w h dpr. split; [|split].
  - rewrite (resize_with_program s u Hprog). eexists.
    split; [reflexivity|]. plumb. cbn [uResolution set_uResolution c_r c_g c_b].
    fold w h dpr. split; [reflexivity|]. split; [reflexivity|].
    intros _ _ Hw Hh Hd. split; [reflexivity|]. split; [reflexivity|].
    split.
    + field. split; lra.
    + intro H1. rewrite H1. split; ring.
  - intros p mp tp h0. unfold mount, mount_surface, resize.
    destruct (mouseReact p); plumb; reflexivity.
  - eexists. split; [vm_compute; reflexivity|].
    repeat split.
Qed.

Lemma resize_resolution_witness :
  exists u',
    program (env (resize s800)) = Some u' /\
    canvasWidth (host (resize s800)) = 800 * 0.5 * renderer_dpr (env s800) /\
    c_r (uResolution u') == 800 * 0.5 /\ c_g (uResolution u') == 600 * 0.5 /\
    c_b (uResolution u') == 800 / 600.
Proof.
  destruct (program (env s800)) as [u|] eqn:E; [|vm_compute in E; discriminate].
  destruct (resize_resolution s800 u E) as [(u' & H1 & _ & _ & H4) _].
  exists u'. split; [exact H1|].
  destruct H4 as (Hcw & _ & Hb & Hrg);
    [vm_compute; reflexivity | vm_compute; reflexivity
    | vm_compute; discriminate | reflexivity | reflexivity |].
  destruct Hrg as [Hr Hg]; [reflexivity|].
  split; [exact Hcw | split; [exact Hr | split; [exact Hg | exact Hb]]].
Defined.

(** C5 as stated fails: at device pixel ratio 2 the renderer's pixel ratio is
    1.5, and the debounced resize of a 1000 by 500 container writes
    (750, 375, 2), not (500, 250, 2). *)
Lemma resolution_scaled_by_pixel_ratio :
  exists s u,
    run [Resized 1000 500; TimerFired] (firstMount defaultProps (idleHost 2 800 600))
      = Some s /\
    program (env s) = Some u /\
    c_r (uResolution u) == 750 /\ c_g (uResolution u) == 375 /\
    ~ c_r (uResolution u) == 1000 * 0.5 /\ ~ c_g (uResolution u) == 500 * 0.5.
Proof.
  eexists. eexists. split; [vm_compute; reflexivity|].
  split; [reflexivity|]. repeat split; discriminate.
Qed.

(** C8.  Running [resize] twice on the same container box leaves the same
    uniforms (resolution and aspect included), the same closure and the same
    canvas size and style as running it once. *)
Theorem resize_idempotent (s : State) :
  env (resize (resize s)) = env (resize s) /\
  canvasWidth (host (resize (resize s))) = canvasWidth (host (resize s)) /\
  canvasHeight (host (resize (resize s))) = canvasHeight (host (resize s)) /\
  canvasStyleWidth (host (resize (resize s))) = canvasStyleWidth (host (resize s)) /\
  canvasStyleHeight (host (resize (resize s))) = canvasStyleHeight (host (resize s)) /\
  mousePos (resize (resize s)) = mousePos (resize s) /\
  targetMousePos (resize (resize s)) = targetMousePos (resize s).
Proof.
  destruct (program (env s)) as [u|] eqn:E.
  - rewrite (resize_with_program s u E).
    match goal with |- context [resize ?x] => set (s1 := x) end.
    assert (E1 : program (env s1)
                 = Some (set_uResolution
                           (mkColor (offsetWidth (host s) * 0.5 * renderer_dpr (env s))
                                    (offsetHeight (host s) * 0.5 * renderer_dpr (env s))
                                    (offsetWidth (host s) * 0.5 * renderer_dpr (env s)
                                     / (offsetHeight (host s) * 0.5 * renderer_dpr (env s))))
                           u)) by reflexivity.
    rewrite (resize_with_program s1 _ E1). repeat split.
  - rewrite (resize_without_program s E).
    match goal with |- context [resize ?x] => set (s1 := x) end.
    assert (E1 : program (env s1) = None) by exact E.
    rewrite (resize_without_program s1 E1). repeat split.
Qed.

(* ================================================================== *)
(** ** The first resize and the program *)

Lemma update_resolution (t : Q) (s s' : State) :
  update t s = Some s' -> resolution s' = resolution s.
Proof.
  unfold resolution. intro H.
  destruct (Qlt_le_dec (t - lastFrameTime (env s)) FRAME_DURATION) as [Hl|Hl].
  - rewrite (update_skip _ _ Hl) in H. injection H as <-. reflexivity.
  - apply Qle_not_lt in Hl. destruct (program (env s)) as [u|] eqn:E.
    + rewrite (update_draw _ _ _ E Hl) in H. injection H as <-. reflexivity.
    + exfalso. apply Qnot_lt_le, ltb_ge in Hl.
      unfold update in H. plumb. rewrite Hl, E in H. discriminate.
Qed.

(** C10.  The [resize()] call inside the effect body runs while [program]
    is still [undefined]: it sizes and styles the canvas and touches nothing
    else.  The program is created after it, with [uResolution] taken from
    the canvas as that resize left it.  Afterwards [uResolution] changes
    only when a debounce timer fires and runs [resize], which then writes
    it. *)
Theorem first_resize_skips_uniforms (p : Props) (mp tp : Point) (h : Host) :
  let dpr := Num.min (devicePixelRatio h) 1.5 in
  let s0 := mount_surface p mp tp h in
  let s := mount p mp tp h in
  program (env s0) = None /\
  log (host s0)
    = log h ++ [NewRenderer dpr; AddResizeListener;
                SetSize (offsetWidth h * 0.5) (offsetHeight h * 0.5)] /\
  canvasWidth (host s0) = offsetWidth h * 0.5 * dpr /\
  canvasHeight (host s0) = offsetHeight h * 0.5 * dpr /\
  (forall s1, program (env s1) = None ->
     env (resize s1) = env s1 /\ mousePos (resize s1) = mousePos s1 /\
     targetMousePos (resize s1) = targetMousePos s1) /\
  log (host s)
    = log (host s0)
      ++ [NewProgram; RequestAnimationFrame (rafNext h); AppendChild]
      ++ (if mouseReact p then [AddMouseMoveListener] else []) /\
  resolution s
    = Some (mkColor (canvasWidth (host s0)) (canvasHeight (host s0))
                    (canvasWidth (host s0) / canvasHeight (host s0))) /\
  (forall ev s1 s2, dispatch ev s1 = Some s2 ->
     resolution s2 <> resolution s1 ->
     ev = TimerFired /\ timeouts (host s1) <> []) /\
  (forall s1 u i rest,
     program (env s1) = Some u -> timeouts (host s1) = i :: rest ->
     exists s2,
       dispatch TimerFired s1 = Some s2 /\
       resolution s2
         = Some (mkColor (canvasWidth (host s2)) (canvasHeight (host s2))
                         (canvasWidth (host s2) / canvasHeight (host s2)))).
Proof.
  intros dpr s0 s.
  assert (Hno : forall s1, program (env s1) = None ->
            env (resize s1) = env s1 /\ mousePos (resize s1) = mousePos s1 /\
            targetMousePos (resize s1) = targetMousePos s1).
  { intros s1 E. rewrite (resize_without_program s1 E). repeat split. }
  assert (Hev : forall ev s1 s2, dispatch ev s1 = Some s2 ->
            resolution s2 <> resolution s1 ->
            ev = TimerFired /\ timeouts (host s1) <> []).
  { intros ev s1 s2 H Hne.
    destruct ev as [t|w hh| |now rect e]; cbn [dispatch] in H.
    - exfalso. apply Hne. destruct (rafPending (host s1)).
      + now injection H as <-.
      + apply update_resolution in H. exact H.
    - exfalso. apply Hne. plumb.
      destruct (resizeListener (host s1)); injection H as <-; reflexivity.
    - split; [reflexivity|]. intro E. apply Hne. rewrite E in H.
      now injection H as <-.
    - exfalso. apply Hne.
      destruct (mouseMoveListener (host s1)); injection H as <-;
        [unfold handleMouseMove; destruct (Num.ltb _ _)|]; reflexivity. }
  assert (Htm : forall s1 u i rest,
            program (env s1) = Some u -> timeouts (host s1) = i :: rest ->
            exists s2,
              dispatch TimerFired s1 = Some s2 /\
              resolution s2
                = Some (mkColor (canvasWidth (host s2)) (canvasHeight (host s2))
                          (canvasWidth (host s2) / canvasHeight (host s2)))).
  { intros s1 u i rest Hu Ht. cbn [dispatch]. rewrite Ht. eexists.
    split; [reflexivity|].
    match goal with |- context [resize ?x] => set (s2 := x) end.
    assert (E2 : program (env s2) = Some u) by exact Hu.
    rewrite (resize_with_program s2 u E2). reflexivity. }
  split; [reflexivity|].
  split; [unfold s0, mount_surface, resize; plumb; now rewrite <- !app_assoc|].
  split; [reflexivity|]. split; [reflexivity|].
  split; [exact Hno|].
  split.
  { unfold s, s0, mount, mount_surface, resize.
    destruct (mouseReact p); plumb; rewrite <- ?app_assoc; reflexivity. }
  split.
  { unfold s, s0, mount, mount_surface, resize, resolution.
    destruct (mouseReact p); reflexivity. }
  split; [exact Hev | exact Htm].
Qed.

(* ================================================================== *)
(** ** Setup and teardown *)

Lemma remove_id_single (i : nat) : remove_id i [i] = [].
Proof. unfold remove_id. simpl. now rewrite Nat.eqb_refl. Qed.

Lemma mount_Inv (p : Props) (mp tp : Point) (h : Host) :
  released h -> Inv (mount p mp tp h).
Proof.
  intros (Hr & Ht & _ & Hm & _). constructor.
  - apply mount_program.
  - right. exists (rafNext h). unfold mount, mount_surface, resize.
    destruct (mouseReact p); plumb; rewrite Hr; split; reflexivity.
  - left. unfold mount, mount_surface, resize.
    destruct (mouseReact p); plumb; exact Ht.
  - unfold mount, mount_surface, resize.
    destruct (mouseReact p) eqn:E; plumb; cbn [props mouseReact]; congruence.
Qed.

Lemma update_Inv (t : Q) (s : State) :
  program (env s) <> None -> rafPending (host s) = [] ->
  (timeouts (host s) = [] \/
   exists i, timeouts (host s) = [i] /\ resizeTimeout (env s) = Some i) ->
  (mouseMoveListener (host s) = true -> mouseReact (props (env s)) = true) ->
  exists s', update t s = Some s' /\ Inv s'.
Proof.
  intros Hp Hr Ht Hm. destruct (program (env s)) as [u|] eqn:Eu; [|congruence].
  destruct (Qlt_le_dec (t - lastFrameTime (env s)) FRAME_DURATION) as [H|H].
  - rewrite (update_skip _ _ H). eexists. split; [reflexivity|].
    constructor; unfold rescheduled; plumb.
    + congruence.
    + right. exists (rafNext (host s)). rewrite Hr. split; reflexivity.
    + exact Ht.
    + exact Hm.
  - apply Qle_not_lt in H. rewrite (update_draw _ _ _ Eu H).
    eexists. split; [reflexivity|].
    constructor; unfold rescheduled; plumb.
    + discriminate.
    + right. exists (rafNext (host s)). rewrite Hr. split; reflexivity.
    + exact Ht.
    + exact Hm.
Qed.

Lemma resize_Inv (s : State) :
  program (env s) <> None ->
  forall s0, Inv s0 ->
  rafPending (host s) = rafPending (host s0) ->
  animateId (env s) = animateId (env s0) ->
  timeouts (host s) = [] ->
  mouseMoveListener (host s) = mouseMoveListener (host s0) ->
  props (env s) = props (env s0) ->
  Inv (resize s).
Proof.
  intros Hp s0 [_ Hr _ Hm] Er Ea Et Em Ep.
  destruct (program (env s)) as [u|] eqn:Eu; [|congruence].
  rewrite (resize_with_program s u Eu). constructor; plumb.
  - discriminate.
  - rewrite Er, Ea. exact Hr.
  - left. exact Et.
  - rewrite Em, Ep. exact Hm.
Qed.

(** Every callback the host can run keeps the invariant, and none throws. *)
Lemma dispatch_Inv (ev : Event) (s : State) :
  Inv s -> exists s', dispatch ev s = Some s' /\ Inv s'.
Proof.
  intros I. pose proof I as [Hp Hr Ht Hm].
  destruct ev as [t|w hh| |now rect e]; cbn [dispatch].
  - destruct Hr as [Hr | (i & Hr & Ha)]; rewrite Hr.
    + exists s. split; [reflexivity | exact I].
    + apply update_Inv; plumb; auto.
  - plumb. destruct (resizeListener (host s)).
    + eexists. split; [reflexivity|].
      unfold handleResize. plumb.
      destruct (resizeTimeout (env s)) as [j|] eqn:Ej; plumb;
        constructor; plumb; try assumption;
        right; exists (timeoutNext (host s)); (split; [|reflexivity]).
      * destruct Ht as [Ht | (i & Ht & Hi)]; rewrite Ht; [reflexivity|].
        injection Hi as ->. now rewrite remove_id_single.
      * destruct Ht as [Ht | (i & Ht & Hi)]; [|discriminate].
        rewrite Ht. reflexivity.
    + eexists. split; [reflexivity|]. constructor; plumb; assumption.
  - destruct Ht as [Ht | (i & Ht & Hi)]; rewrite Ht.
    + exists s. split; [reflexivity | exact I].
    + eexists. split; [reflexivity|].
      refine (resize_Inv _ _ s I _ _ _ _ _); try reflexivity. exact Hp.
  - destruct (mouseMoveListener (host s)) eqn:El.
    + eexists. split; [reflexivity|]. unfold handleMouseMove.
      destruct (Num.ltb _ _); [exact I|].
      constructor; plumb; rewrite ?El; assumption.
    + exists s. split; [reflexivity | exact I].
Qed.

Lemma run_Inv (evs : list Event) :
  forall s, Inv s -> exists s', run evs s = Some s' /\ Inv s'.
Proof.
  induction evs as [|ev evs IH]; intros s I.
  - exists s. split; [reflexivity | exact I].
  - destruct (dispatch_Inv ev s I) as (s1 & Hd & I1).
    destruct (IH s1 I1) as (s' & Hr & I').
    exists s'. cbn [run]. rewrite Hd. split; assumption.
Qed.

(** Logging the calls [cs] one after the other appends them. *)
Lemma logged_fold (cs : list HostCall) :
  forall l, fold_left (fun l c => l ++ [c]) cs l = l ++ cs.
Proof.
  induction cs as [|c cs IH]; intro l; simpl.
  - now rewrite app_nil_r.
  - rewrite IH, <- app_assoc. reflexivity.
Qed.

(** In the model the canvas is either a child of [ctn] or detached; there
    the cleanup does not throw and makes exactly the calls of
    [teardownCalls]. *)
Lemma teardown_calls (s : State) :
  exists s',
    teardown s = Some s' /\
    log (host s') = log (host s) ++ teardownCalls s /\
    resizeListener (host s') = false /\
    canvasParent (host s') = false /\
    (mouseReact (props (env s)) = true -> mouseMoveListener (host s') = false) /\
    (mouseMoveListener (host s') = true -> mouseMoveListener (host s) = true) /\
    rafPending (host s')
      = match animateId (env s) with
        | Some i => remove_id i (rafPending (host s))
        | None => rafPending (host s)
        end /\
    timeouts (host s')
      = match resizeTimeout (env s) with
        | Some i => remove_id i (timeouts (host s))
        | None => timeouts (host s)
        end /\
    contextLost (host s') = (loseContextExt (host s) || contextLost (host s))%bool /\
    loseContextExt (host s') = loseContextExt (host s) /\
    env s' = env s.
Proof.
  destruct s as [mp tp [[pc ps pa pm] dpr pg rt ai lf lm]
                      [r ow oh rp rn tm tn rl ml cp cw ch sw sh lx cl lg]].
  destruct pm, ai, rt, cp, lx;
    (eexists; split; [vm_compute; reflexivity|]);
    match goal with
    | |- context [?l ++ teardownCalls ?x] =>
        rewrite <- (logged_fold (teardownCalls x) l)
    end;
    vm_compute; repeat split; congruence.
Qed.

Lemma teardown_released (s s' : State) :
  Inv s -> teardown s = Some s' -> released (host s') /\ Inv s'.
Proof.
  intros [Hp Hr Ht Hm] H.
  destruct (teardown_calls s)
    as (s1 & H1 & _ & Hrl & Hcp & Hm1 & Hm2 & Hraf & Htm & _ & _ & He).
  rewrite H in H1. injection H1 as <-.
  assert (Er : rafPending (host s') = []).
  { rewrite Hraf. destruct Hr as [Hr | (i & Hr & Ha)].
    - rewrite Hr. destruct (animateId (env s)); reflexivity.
    - rewrite Ha, Hr. apply remove_id_single. }
  assert (Et : timeouts (host s') = []).
  { rewrite Htm. destruct Ht as [Ht | (i & Ht & Ha)].
    - rewrite Ht. destruct (resizeTimeout (env s)); reflexivity.
    - rewrite Ha, Ht. apply remove_id_single. }
  assert (Em : mouseMoveListener (host s') = false).
  { destruct (mouseReact (props (env s))) eqn:E; [now apply Hm1|].
    destruct (mouseMoveListener (host s')) eqn:E'; [|reflexivity].
    specialize (Hm (Hm2 eq_refl)). congruence. }
  split.
  - repeat split; assumption.
  - constructor.
    + now rewrite He.
    + now left.
    + now left.
    + rewrite Em. discriminate.
Qed.

(** No callback registers or removes a listener, attaches or detaches the
    canvas, touches the context, or changes the props or the pixel ratio. *)
Lemma dispatch_keeps (ev : Event) (s s' : State) :
  dispatch ev s = Some s' ->
  resizeListener (host s') = resizeListener (host s) /\
  mouseMoveListener (host s') = mouseMoveListener (host s) /\
  canvasParent (host s') = canvasParent (host s) /\
  contextLost (host s') = contextLost (host s) /\
  loseContextExt (host s') = loseContextExt (host s) /\
  devicePixelRatio (host s') = devicePixelRatio (host s) /\
  props (env s') = props (env s) /\
  renderer_dpr (env s') = renderer_dpr (env s).
Proof.
  intro H. destruct ev as [t|w hh| |now rect e]; cbn [dispatch] in H.
  - destruct (rafPending (host s)) as [|i rest].
    { injection H as <-. repeat split. }
    set (s1 := with_host (fun h => set_raf rest (rafNext h) h) s) in *.
    destruct (Qlt_le_dec (t - lastFrameTime (env s1)) FRAME_DURATION) as [Hlt|Hge].
    + rewrite (update_skip _ _ Hlt) in H. injection H as <-. repeat split.
    + apply Qle_not_lt in Hge. destruct (program (env s1)) as [u|] eqn:Eu.
      * rewrite (update_draw _ _ _ Eu Hge) in H. injection H as <-. repeat split.
      * exfalso. apply Qnot_lt_le, ltb_ge in Hge.
        unfold update in H. plumb. rewrite Hge, Eu in H. discriminate.
  - plumb. destruct (resizeListener (host s)) eqn:El.
    + injection H as <-. unfold handleResize. plumb.
      destruct (resizeTimeout (env s)); plumb; repeat split; try exact El.
    + injection H as <-. plumb. repeat split; try exact El.
  - destruct (timeouts (host s)) as [|i rest].
    { injection H as <-. repeat split. }
    injection H as <-.
    match goal with |- context [resize ?x] => set (s1 := x) end.
    destruct (program (env s1)) as [u|] eqn:Eu.
    + rewrite (resize_with_program s1 u Eu). repeat split.
    + rewrite (resize_without_program s1 Eu). repeat split.
  - destruct (mouseMoveListener (host s)) eqn:El.
    + injection H as <-. unfold handleMouseMove.
      destruct (Num.ltb _ _); repeat split; try exact El.
    + injection H as <-. repeat split; try exact El.
Qed.

Lemma run_keeps (evs : list Event) :
  forall s s', run evs s = Some s' ->
  resizeListener (host s') = resizeListener (host s) /\
  mouseMoveListener (host s') = mouseMoveListener (host s) /\
  canvasParent (host s') = canvasParent (host s) /\
  contextLost (host s') = contextLost (host s) /\
  loseContextExt (host s') = loseContextExt (host s) /\
  devicePixelRatio (host s') = devicePixelRatio (host s) /\
  props (env s') = props (env s) /\
  renderer_dpr (env s') = renderer_dpr (env s).
Proof.
  induction evs as [|ev evs IH]; intros s s' H; cbn [run] in H.
  - injection H as <-. repeat split.
  - destruct (dispatch ev s) as [s1|] eqn:Hd; [|discriminate].
    destruct (dispatch_keeps ev s s1 Hd) as (A1 & A2 & A3 & A4 & A5 & A6 & A7 & A8).
    destruct (IH s1 s' H) as (B1 & B2 & B3 & B4 & B5 & B6 & B7 & B8).
    repeat split; congruence.
Qed.

Lemma mount_host (p : Props) (mp tp : Point) (h : Host) :
  resizeListener (host (mount p mp tp h)) = true /\
  canvasParent (host (mount p mp tp h)) = true /\
  contextLost (host (mount p mp tp h)) = false /\
  props (env (mount p mp tp h)) = p /\
  (mouseReact p = true -> mouseMoveListener (host (mount p mp tp h)) = true).
Proof.
  unfold mount, mount_surface, resize.
  destruct (mouseReact p); plumb; repeat split; discriminate.
Qed.

(** C4, as the code has it.  After any events, the cleanup cancels the
    pending animation frame, clears the pending debounce timer, removes the
    resize listener and (when [mouseReact]) the pointer listener, detaches
    the canvas and loses the context (when the extension exists), in that
    order.  Nothing is left registered; a second cleanup throws nothing and
    leaves the same.  The cleanup is safe as well when the pointer listener
    was never registered ([mouseReact] off), when no timer was ever set, and
    when the canvas has already been detached: then [removeChild] is not
    called. *)
Theorem teardown_releases_all (p : Props) (mp tp : Point) (h : Host)
    (evs : list Event) (Hidle : released h) :
  exists s s1 s2 s1',
    run evs (mount p mp tp h) = Some s /\
    teardown s = Some s1 /\
    log (host s1) = log (host s) ++ teardownCalls s /\
    pick releases (teardownCalls s)
      = [AnimationFrame; Timer; ResizeListener]
        ++ (if mouseReact p then [MouseMoveListener] else [])
        ++ [CanvasNode]
        ++ (if loseContextExt (host s) then [GLContext] else []) /\
    released (host s1) /\
    contextLost (host s1)
      = (loseContextExt (host s) || contextLost (host s))%bool /\
    teardown s1 = Some s2 /\
    released (host s2) /\
    contextLost (host s2) = contextLost (host s1) /\
    teardown (with_host (set_canvasParent false) s) = Some s1' /\
    released (host s1') /\
    ~ In RemoveChild (teardownCalls (with_host (set_canvasParent false) s)).
Proof.
  destruct (run_Inv evs _ (mount_Inv p mp tp h Hidle)) as (s & Hrun & I).
  destruct (run_keeps evs _ _ Hrun) as (_ & _ & Kc & _ & _ & _ & Kp & _).
  destruct (mount_host p mp tp h) as (_ & Mc & _ & Mp & _).
  rewrite Mc in Kc. rewrite Mp in Kp.
  destruct (teardown_calls s)
    as (s1 & H1 & Hlog & _ & _ & _ & _ & _ & _ & Hcl & Hlx & _).
  destruct (teardown_released s s1 I H1) as [R1 I1].
  destruct (teardown_calls s1)
    as (s2 & H2 & _ & _ & _ & _ & _ & _ & _ & Hcl2 & _ & _).
  destruct (teardown_released s1 s2 I1 H2) as [R2 _].
  set (sd := with_host (set_canvasParent false) s).
  assert (Id : Inv sd) by (destruct I; constructor; assumption).
  destruct (teardown_calls sd) as (s1' & H1' & _).
  destruct (teardown_released sd s1' Id H1') as [R1' _].
  exists s, s1, s2, s1'.
  split; [exact Hrun|]. split; [exact H1|]. split; [exact Hlog|].
  split.
  { unfold teardownCalls. rewrite Kc, Kp.
    destruct (mouseReact p), (loseContextExt (host s)); reflexivity. }
  split; [exact R1|]. split; [exact Hcl|]. split; [exact H2|].
  split; [exact R2|].
  split; [rewrite Hcl2, Hlx, Hcl; now destruct (loseContextExt (host s))|].
  split; [exact H1'|]. split; [exact R1'|].
  unfold teardownCalls, sd. plumb.
  destruct (mouseReact (props (env s))), (loseContextExt (host s));
    simpl; intuition discriminate.
Qed.

Lemma teardown_releases_all_witness :
  exists s s1 s2 s1',
    run [Frame 40; Resized 640 480; MouseMoved 100 (mkRect 0 0 640 480)
                                               (mkMouseEvent 10 10)]
        (mount defaultProps centre centre (idleHost 1 800 600)) = Some s /\
    teardown s = Some s1 /\
    log (host s1) = log (host s) ++ teardownCalls s /\
    pick releases (teardownCalls s)
      = [AnimationFrame; Timer; ResizeListener]
        ++ (if mouseReact defaultProps then [MouseMoveListener] else [])
        ++ [CanvasNode]
        ++ (if loseContextExt (host s) then [GLContext] else []) /\
    released (host s1) /\
    contextLost (host s1)
      = (loseContextExt (host s) || contextLost (host s))%bool /\
    teardown s1 = Some s2 /\
    released (host s2) /\
    contextLost (host s2) = contextLost (host s1) /\
    teardown (with_host (set_canvasParent false) s) = Some s1' /\
    released (host s1') /\
    ~ In RemoveChild (teardownCalls (with_host (set_canvasParent false) s)).
Proof.
  assert (Hidle : released (idleHost 1 800 600)) by (repeat split).
  exact (teardown_releases_all defaultProps centre centre
           (idleHost 1 800 600)
           [Frame 40; Resized 640 480;
            MouseMoved 100 (mkRect 0 0 640 480) (mkMouseEvent 10 10)]
           Hidle).
Defined.

(** C4 as stated fails in its last part: the cleanup does not release in the
    reverse of the order of acquisition.  The effect body acquires context,
    resize listener, animation frame, canvas node, pointer listener; the
    cleanup releases animation frame, timer, resize listener, pointer
    listener, canvas node, context. *)
Lemma teardown_order_not_reversed :
  exists s',
    teardown s800 = Some s' /\
    pick acquires (log (host s800))
      = [GLContext; ResizeListener; AnimationFrame; CanvasNode;
         MouseMoveListener] /\
    pick releases (log (host s'))
      = [AnimationFrame; Timer; ResizeListener; MouseMoveListener;
         CanvasNode; GLContext] /\
    pick releases (log (host s')) <> rev (pick acquires (log (host s800))) /\
    filter (fun r => negb (isTimer r)) (pick releases (log (host s')))
      <> rev (pick acquires (log (host s800))).
Proof.
  eexists. split; [vm_compute; reflexivity|].
  repeat split; vm_compute; discriminate.
Qed.

(* ================================================================== *)
(** ** The pointer when [mouseReact] is off *)

(** What one callback does when the pointer listener is not registered: the
    props, the listener and the target stay, no pointer listener is added,
    and at most one draw is made, with [uMouse] one filter step further. *)
Lemma dispatch_without_listener (ev : Event) (s s' : State) :
  dispatch ev s = Some s' ->
  mouseMoveListener (host s) = false ->
  props (env s') = props (env s) /\
  mouseMoveListener (host s') = false /\
  targetMousePos s' = targetMousePos s /\
  exists l,
    log (host s') = log (host s) ++ l /\
    ~ In AddMouseMoveListener l /\
    ((draws l = [] /\ mousePos s' = mousePos s) \/
     (exists u, draws l = [u] /\ uMouse u = mousePos s' /\
        pt_x (mousePos s') = lerp (pt_x (mousePos s)) (pt_x (targetMousePos s)) /\
        pt_y (mousePos s') = lerp (pt_y (mousePos s)) (pt_y (targetMousePos s)))).
Proof.
  intros H Hl.
  assert (Hnil : props (env s) = props (env s) /\
                 mouseMoveListener (host s) = false /\
                 targetMousePos s = targetMousePos s /\
                 exists l, log (host s) = log (host s) ++ l /\
                   ~ In AddMouseMoveListener l /\
                   ((draws l = [] /\ mousePos s = mousePos s) \/
                    (exists u, draws l = [u] /\ uMouse u = mousePos s /\
                       pt_x (mousePos s)
                         = lerp (pt_x (mousePos s)) (pt_x (targetMousePos s)) /\
                       pt_y (mousePos s)
                         = lerp (pt_y (mousePos s)) (pt_y (targetMousePos s))))).
  { repeat split; [exact Hl|]. exists []. rewrite app_nil_r.
    repeat split; [intros [] | left; split; reflexivity]. }
  destruct ev as [t|w hh| |now rect e]; cbn [dispatch] in H.
  - destruct (rafPending (host s)) as [|i rest] eqn:Er.
    { injection H as <-. exact Hnil. }
    set (s1 := with_host (fun h => set_raf rest (rafNext h) h) s) in *.
    destruct (Qlt_le_dec (t - lastFrameTime (env s1)) FRAME_DURATION) as [Hlt|Hge].
    + rewrite (update_skip _ _ Hlt) in H. injection H as <-.
      repeat split; [exact Hl|].
      exists [RequestAnimationFrame (rafNext (host s1))].
      split; [exact (rescheduled_log s1)|].
      split; [intros [E|[]]; discriminate | left; split; reflexivity].
    + apply Qle_not_lt in Hge.
      destruct (program (env s1)) as [u|] eqn:Eu.
      * rewrite (update_draw _ _ _ Eu Hge) in H. injection H as <-.
        repeat split; [exact Hl|].
        eexists [RequestAnimationFrame (rafNext (host s1)); Render _].
        split; [unfold rescheduled; plumb; rewrite <- app_assoc; reflexivity|].
        split; [intros [E|[E|[]]]; discriminate|].
        right. eexists. repeat split.
      * exfalso. apply Qnot_lt_le, ltb_ge in Hge.
        unfold update in H. plumb. rewrite Hge, Eu in H. discriminate.
  - plumb. destruct (resizeListener (host s)).
    + injection H as <-. unfold handleResize. plumb.
      destruct (resizeTimeout (env s)) as [j|] eqn:Ej; plumb;
        (repeat split; [exact Hl|]);
        [exists [ClearTimeout (Some j); SetTimeout (timeoutNext (host s))]
        |exists [ClearTimeout None; SetTimeout (timeoutNext (host s))]];
        (split; [rewrite <- app_assoc; reflexivity|]);
        (split; [intros [E|[E|[]]]; discriminate | left; split; reflexivity]).
    + injection H as <-. repeat split; [exact Hl|].
      exists []. rewrite app_nil_r.
      repeat split; [intros [] | left; split; reflexivity].
  - destruct (timeouts (host s)) as [|i rest] eqn:Et.
    { injection H as <-. exact Hnil. }
    injection H as <-.
    match goal with |- context [resize ?x] => set (s1 := x) end.
    assert (Hs1 : log (host s1) = log (host s) /\
                  mouseMoveListener (host s1) = false) by (split; [reflexivity | exact Hl]).
    destruct Hs1 as [Hlog Hl1].
    destruct (program (env s1)) as [u|] eqn:Eu.
    + rewrite (resize_with_program s1 u Eu). plumb.
      repeat split; [exact Hl|].
      eexists [SetSize _ _]. split; [reflexivity|].
      split; [intros [E|[]]; discriminate | left; split; reflexivity].
    + rewrite (resize_without_program s1 Eu). plumb.
      repeat split; [exact Hl|].
      eexists [SetSize _ _]. split; [reflexivity|].
      split; [intros [E|[]]; discriminate | left; split; reflexivity].
  - rewrite Hl in H. injection H as <-. exact Hnil.
Qed.

Lemma draws_single (l : list HostCall) (u : Uniforms) (P : Uniforms -> Prop) :
  draws l = [u] -> P u -> Forall P (draws l).
Proof. intros -> H. constructor; [exact H | constructor]. Qed.

Lemma run_without_listener (evs : list Event) :
  forall s, Inv s -> mouseMoveListener (host s) = false ->
  exists s' l,
    run evs s = Some s' /\
    props (env s') = props (env s) /\
    mouseMoveListener (host s') = false /\
    targetMousePos s' = targetMousePos s /\
    log (host s') = log (host s) ++ l /\
    ~ In AddMouseMoveListener l /\
    (targetMousePos s = centre ->
     pt_x (mousePos s) == 0.5 -> pt_y (mousePos s) == 0.5 ->
     pt_x (mousePos s') == 0.5 /\ pt_y (mousePos s') == 0.5 /\
     Forall centred (draws l)).
Proof.
  induction evs as [|ev evs IH]; intros s I Hl.
  - exists s, []. rewrite app_nil_r.
    split; [reflexivity|]. split; [reflexivity|]. split; [exact Hl|].
    split; [reflexivity|]. split; [reflexivity|]. split; [intros []|].
    intros _ Hx Hy. split; [exact Hx | split; [exact Hy | constructor]].
  - destruct (dispatch_Inv ev s I) as (s1 & Hd & I1).
    destruct (dispatch_without_listener ev s s1 Hd Hl)
      as (Hp1 & Hl1 & Ht1 & l1 & Hlog1 & Hn1 & Hdraw).
    destruct (IH s1 I1 Hl1) as (s' & l2 & Hr & Hp2 & Hl2 & Ht2 & Hlog2 & Hn2 & Hc2).
    exists s', (l1 ++ l2). cbn [run]. rewrite Hd.
    split; [exact Hr|]. split; [congruence|]. split; [exact Hl2|].
    split; [congruence|].
    split; [rewrite Hlog2, Hlog1, app_assoc; reflexivity|].
    split; [intro Hin; apply in_app_or in Hin; tauto|].
    intros Ht Hx Hy. rewrite Ht1 in Hc2.
    assert (Hxy1 : pt_x (mousePos s1) == 0.5 /\ pt_y (mousePos s1) == 0.5 /\
                   Forall centred (draws l1)).
    { destruct Hdraw as [[Hd0 Hm] | (u & Hd1 & Hu & Hmx & Hmy)].
      - rewrite Hm, Hd0. split; [exact Hx | split; [exact Hy | constructor]].
      - assert (Ex : pt_x (mousePos s1) == 0.5).
        { rewrite Hmx, Ht. unfold lerp. cbn [centre pt_x]. rewrite Hx. reflexivity. }
        assert (Ey : pt_y (mousePos s1) == 0.5).
        { rewrite Hmy, Ht. unfold lerp. cbn [centre pt_y]. rewrite Hy. reflexivity. }
        split; [exact Ex | split; [exact Ey|]].
        apply (draws_single _ u); [exact Hd1|].
        unfold centred. rewrite Hu. split; assumption. }
    destruct Hxy1 as (Hx1 & Hy1 & Hf1).
    destruct (Hc2 Ht Hx1 Hy1) as (Hx2 & Hy2 & Hf2).
    split; [exact Hx2 | split; [exact Hy2|]].
    rewrite draws_app. apply Forall_app. split; assumption.
Qed.

Lemma mount_log (p : Props) (mp tp : Point) (h : Host) :
  log (host (mount p mp tp h))
  = log h
    ++ [NewRenderer (Num.min (devicePixelRatio h) 1.5); AddResizeListener;
        SetSize (offsetWidth h * 0.5) (offsetHeight h * 0.5);
        NewProgram; RequestAnimationFrame (rafNext h); AppendChild]
    ++ (if mouseReact p then [AddMouseMoveListener] else []).
Proof.
  unfold mount, mount_surface, resize.
  destruct (mouseReact p); plumb; rewrite <- ?app_assoc; reflexivity.
Qed.

Lemma mount_refs (p : Props) (mp tp : Point) (h : Host) :
  mousePos (mount p mp tp h) = mp /\ targetMousePos (mount p mp tp h) = tp /\
  program (env (mount p mp tp h))
    = Some (mkUniforms 0 (color p)
              (mkColor (canvasWidth (host (mount_surface p mp tp h)))
                       (canvasHeight (host (mount_surface p mp tp h)))
                       (canvasWidth (host (mount_surface p mp tp h))
                        / canvasHeight (host (mount_surface p mp tp h))))
              (mkPoint (pt_x mp) (pt_y mp)) (amplitude p) (speed p)) /\
  (mouseReact p = false ->
   mouseMoveListener (host (mount p mp tp h)) = mouseMoveListener h).
Proof.
  unfold mount, mount_surface, resize.
  destruct (mouseReact p); plumb; repeat split; discriminate.
Qed.

(** C9, as the code has it.  The two refs are created at (0.5, 0.5) and live
    as long as the component, across runs of the effect.  In a run with
    [mouseReact] off no pointer listener is ever registered and the target
    never changes.  When moreover both refs are at the centre as the run
    starts, which holds for the first run, every draw of the run has
    [uMouse] equal to (0.5, 0.5). *)
Theorem pointer_stays_centred (p : Props) (mp tp : Point) (h : Host)
    (evs : list Event)
    (Hreact : mouseReact p = false) (Hidle : released h) :
  firstMount p h = mount p (mkPoint 0.5 0.5) (mkPoint 0.5 0.5) h /\
  exists s l,
    run evs (mount p mp tp h) = Some s /\
    log (host s) = log h ++ l /\
    ~ In AddMouseMoveListener l /\
    mouseMoveListener (host s) = false /\
    targetMousePos s = tp /\
    (mp = centre -> tp = centre -> Forall centred (draws l)).
Proof.
  split; [reflexivity|].
  pose proof (mount_Inv p mp tp h Hidle) as I.
  destruct (mount_refs p mp tp h) as (Hmp & Htp & _ & Hml).
  assert (Hl : mouseMoveListener (host (mount p mp tp h)) = false).
  { rewrite (Hml Hreact). apply Hidle. }
  destruct (run_without_listener evs _ I Hl)
    as (s & l & Hr & _ & Hl' & Ht & Hlog & Hn & Hc).
  exists s. eexists. split; [exact Hr|].
  split; [rewrite Hlog, mount_log, Hreact, app_nil_r, <- app_assoc; reflexivity|].
  split.
  { intro Hin. apply in_app_or in Hin. destruct Hin as [Hin|Hin]; [|tauto].
    simpl in Hin. intuition discriminate. }
  split; [exact Hl'|]. split; [congruence|].
  intros -> ->. rewrite draws_app. apply Forall_app. split; [constructor|].
  apply Hc; rewrite ?Hmp, ?Htp; reflexivity.
Qed.

Lemma pointer_stays_centred_witness :
  exists s l,
    run [Frame 40; MouseMoved 100 (mkRect 0 0 800 600) (mkMouseEvent 200 450);
         Frame 80]
        (mount (mkProps (mkColor 1 1 1) 1.0 0.1 false) centre centre
               (idleHost 1 800 600)) = Some s /\
    log (host s) = log (idleHost 1 800 600) ++ l /\
    ~ In AddMouseMoveListener l /\
    mouseMoveListener (host s) = false /\
    targetMousePos s = centre /\
    (centre = centre -> centre = centre -> Forall centred (draws l)).
Proof.
  assert (Hidle : released (idleHost 1 800 600)) by (repeat split).
  exact (proj2 (pointer_stays_centred (mkProps (mkColor 1 1 1) 1.0 0.1 false)
                  centre centre (idleHost 1 800 600)
                  [Frame 40;
                   MouseMoved 100 (mkRect 0 0 800 600) (mkMouseEvent 200 450);
                   Frame 80]
                  eq_refl Hidle)).
Defined.

(** C9 as stated fails for a run of the effect that follows one with
    [mouseReact] on: the refs keep what the earlier run left in them.  Here
    the pointer moves to (0.25, 0.25) in the first run, the props change to
    [mouseReact = false], and the frame drawn in the second run has [uMouse]
    away from the centre. *)
Lemma pointer_off_centre_after_rerun :
  exists s1 s2 s3 u,
    run [MouseMoved 100 (mkRect 0 0 800 600) (mkMouseEvent 200 450);
         Frame 1000] s800 = Some s1 /\
    rerun (mkProps (mkColor 1 1 1) 1.0 0.1 false) s1 = Some s2 /\
    mouseReact (props (env s2)) = false /\
    mouseMoveListener (host s2) = false /\
    run [Frame 2000] s2 = Some s3 /\
    draws (skipn (List.length (log (host s2))) (log (host s3))) = [u] /\
    ~ pt_x (uMouse u) == 0.5 /\ ~ pt_y (uMouse u) == 0.5 /\
    targetMousePos s3 <> centre.
Proof.
  eexists. eexists. eexists. eexists.
  split; [vm_compute; reflexivity|].
  split; [vm_compute; reflexivity|].
  split; [reflexivity|]. split; [reflexivity|].
  split; [vm_compute; reflexivity|].
  split; [vm_compute; reflexivity|].
  repeat split; vm_compute; discriminate.
Qed.

Lemma first_resize_skips_uniforms_witness :
  program (env (mount_surface defaultProps centre centre (idleHost 1 800 600)))
    = None /\
  resolution s800 = Some (mkColor (800 * 0.5 * Num.min 1 1.5)
                                  (600 * 0.5 * Num.min 1 1.5)
                                  (800 * 0.5 * Num.min 1 1.5
                                   / (600 * 0.5 * Num.min 1 1.5))).
Proof.
  destruct (first_resize_skips_uniforms defaultProps centre centre
              (idleHost 1 800 600)) as (H1 & _ & H3 & H4 & _ & _ & H7 & _).
  split; [exact H1|]. unfold s800, firstMount. rewrite H7, H3, H4. reflexivity.
Defined.

(* ================================================================== *)
(** ** More on the running effect *)

Lemma dispatch_pending (ev : Event) (s s' : State) :
  dispatch ev s = Some s' ->
  rafPending (host s) <> [] -> rafPending (host s') <> [].
Proof.
  intros H Hne. destruct ev as [t|w hh| |now rect e]; cbn [dispatch] in H.
  - destruct (rafPending (host s)) as [|i rest]; [congruence|].
    set (s1 := with_host (fun h => set_raf rest (rafNext h) h) s) in *.
    destruct (Qlt_le_dec (t - lastFrameTime (env s1)) FRAME_DURATION) as [Hlt|Hge].
    + rewrite (update_skip _ _ Hlt) in H. injection H as <-.
      unfold rescheduled. plumb. destruct rest; discriminate.
    + apply Qle_not_lt in Hge. destruct (program (env s1)) as [u|] eqn:Eu.
      * rewrite (update_draw _ _ _ Eu Hge) in H. injection H as <-.
        unfold rescheduled. plumb. destruct rest; discriminate.
      * exfalso. apply Qnot_lt_le, ltb_ge in Hge.
        unfold update in H. plumb. rewrite Hge, Eu in H. discriminate.
  - plumb. destruct (resizeListener (host s)).
    + injection H as <-. unfold handleResize. plumb.
      destruct (resizeTimeout (env s)); plumb; exact Hne.
    + injection H as <-. exact Hne.
  - destruct (timeouts (host s)) as [|i rest].
    { injection H as <-. exact Hne. }
    injection H as <-.
    match goal with |- context [resize ?x] => set (s1 := x) end.
    destruct (program (env s1)) as [u|] eqn:Eu.
    + rewrite (resize_with_program s1 u Eu). exact Hne.
    + rewrite (resize_without_program s1 Eu). exact Hne.
  - destruct (mouseMoveListener (host s)).
    + injection H as <-. unfold handleMouseMove.
      destruct (Num.ltb _ _); exact Hne.
    + injection H as <-. exact Hne.
Qed.

Lemma run_pending (evs : list Event) :
  forall s s', run evs s = Some s' ->
  rafPending (host s) <> [] -> rafPending (host s') <> [].
Proof.
  induction evs as [|ev evs IH]; intros s s' H Hne; cbn [run] in H.
  - injection H as <-. exact Hne.
  - destruct (dispatch ev s) as [s1|] eqn:Hd; [|discriminate].
    apply (IH s1 s' H). exact (dispatch_pending ev s s1 Hd Hne).
Qed.

(** While the effect runs, whatever callbacks the host delivers: none
    throws; exactly one animation-frame request is pending and [animateId]
    names it, so the loop neither stalls nor doubles; at most one debounce
    timer is pending and [resizeTimeout] names it; the resize listener is
    registered, the pointer listener exactly when [mouseReact] is set, the
    canvas is attached and the context is live. *)
Theorem running_effect_invariant (p : Props) (mp tp : Point) (h : Host)
    (evs : list Event) (Hidle : released h) :
  exists s,
    run evs (mount p mp tp h) = Some s /\
    (exists i, rafPending (host s) = [i] /\ animateId (env s) = Some i) /\
    (timeouts (host s) = [] \/
     exists i, timeouts (host s) = [i] /\ resizeTimeout (env s) = Some i) /\
    resizeListener (host s) = true /\
    mouseMoveListener (host s) = mouseReact p /\
    canvasParent (host s) = true /\
    contextLost (host s) = false /\
    program (env s) <> None /\
    props (env s) = p.
Proof.
  destruct (run_Inv evs _ (mount_Inv p mp tp h Hidle)) as (s & Hr & [Ip Ir It Im]).
  destruct (run_keeps evs _ _ Hr) as (K1 & K2 & K3 & K4 & _ & _ & K7 & _).
  destruct (mount_host p mp tp h) as (M1 & M3 & M4 & M7 & M2).
  destruct (mount_refs p mp tp h) as (_ & _ & _ & M2').
  pose proof (run_pending evs _ _ Hr (mount_pending p mp tp h)) as Hne.
  exists s. split; [exact Hr|].
  split; [destruct Ir as [E|E]; [congruence | exact E]|].
  split; [exact It|]. split; [congruence|].
  split.
  { rewrite K2. destruct (mouseReact p) eqn:E.
    - now apply M2.
    - rewrite (M2' eq_refl). apply Hidle. }
  split; [congruence|]. split; [congruence|]. split; [exact Ip | congruence].
Qed.

Lemma running_effect_invariant_witness :
  exists s,
    run [Frame 40; Resized 640 480; Resized 320 240; Frame 50; TimerFired;
         MouseMoved 100 (mkRect 0 0 320 240) (mkMouseEvent 10 10); Frame 90]
        (mount defaultProps centre centre (idleHost 1 800 600)) = Some s /\
    (exists i, rafPending (host s) = [i] /\ animateId (env s) = Some i) /\
    (timeouts (host s) = [] \/
     exists i, timeouts (host s) = [i] /\ resizeTimeout (env s) = Some i) /\
    resizeListener (host s) = true /\
    mouseMoveListener (host s) = mouseReact defaultProps /\
    canvasParent (host s) = true /\
    contextLost (host s) = false /\
    program (env s) <> None /\
    props (env s) = defaultProps.
Proof.
  assert (Hidle : released (idleHost 1 800 600)) by (repeat split).
  exact (running_effect_invariant defaultProps centre centre (idleHost 1 800 600)
           [Frame 40; Resized 640 480; Resized 320 240; Frame 50; TimerFired;
            MouseMoved 100 (mkRect 0 0 320 240) (mkMouseEvent 10 10); Frame 90]
           Hidle).
Defined.

(* ================================================================== *)
(** ** The debounce of [handleResize] *)

(** One 'resize' event on a running effect: the box is noted by the host,
    the pending timer (if any) is replaced by a fresh one, and neither the
    canvas nor the program is touched. *)
Lemma resized_step (w hh : Q) (s : State) :
  Inv s -> resizeListener (host s) = true ->
  exists s',
    dispatch (Resized w hh) s = Some s' /\
    Inv s' /\ resizeListener (host s') = true /\
    timeouts (host s') = [timeoutNext (host s)] /\
    resizeTimeout (env s') = Some (timeoutNext (host s)) /\
    offsetWidth (host s') = w /\ offsetHeight (host s') = hh /\
    canvasWidth (host s') = canvasWidth (host s) /\
    canvasHeight (host s') = canvasHeight (host s) /\
    program (env s') = program (env s) /\
    renderer_dpr (env s') = renderer_dpr (env s) /\
    log (host s')
      = log (host s) ++ [ClearTimeout (resizeTimeout (env s));
                         SetTimeout (timeoutNext (host s))].
Proof.
  intros I Hl. destruct (dispatch_Inv (Resized w hh) s I) as (s' & Hd & I').
  exists s'. split; [exact Hd|]. split; [exact I'|].
  cbn [dispatch] in Hd. plumb. rewrite Hl in Hd. injection Hd as <-.
  destruct I as [_ _ Ht _].
  unfold handleResize. plumb.
  destruct (resizeTimeout (env s)) as [j|] eqn:Ej; plumb.
  - repeat split; try exact Hl; [|rewrite <- app_assoc; reflexivity].
    destruct Ht as [Ht | (i & Ht & Hi)]; rewrite Ht; [reflexivity|].
    injection Hi as ->. now rewrite remove_id_single.
  - repeat split; try exact Hl; [|rewrite <- app_assoc; reflexivity].
    destruct Ht as [Ht | (i & Ht & Hi)]; [|discriminate].
    rewrite Ht. reflexivity.
Qed.

Lemma resized_burst (boxes : list (Q * Q)) :
  forall (w hh : Q) (s : State),
  Inv s -> resizeListener (host s) = true ->
  exists s' i l,
    run (map (fun b => Resized (fst b) (snd b)) (boxes ++ [(w, hh)])) s = Some s' /\
    Inv s' /\
    timeouts (host s') = [i] /\ resizeTimeout (env s') = Some i /\
    offsetWidth (host s') = w /\ offsetHeight (host s') = hh /\
    canvasWidth (host s') = canvasWidth (host s) /\
    canvasHeight (host s') = canvasHeight (host s) /\
    program (env s') = program (env s) /\
    renderer_dpr (env s') = renderer_dpr (env s) /\
    log (host s') = log (host s) ++ l /\
    filter isSetSize l = [].
Proof.
  induction boxes as [|[w0 h0] boxes IH]; intros w hh s I Hl.
  - destruct (resized_step w hh s I Hl)
      as (s' & Hd & I' & _ & Ht & Hr & Hw & Hh & Hcw & Hch & Hp & Hdpr & Hlog).
    exists s', (timeoutNext (host s)). eexists.
    cbn [app map run fst snd]. rewrite Hd.
    split; [reflexivity|]. split; [exact I'|].
    split; [exact Ht|]. split; [exact Hr|].
    split; [exact Hw|]. split; [exact Hh|].
    split; [exact Hcw|]. split; [exact Hch|].
    split; [exact Hp|]. split; [exact Hdpr|].
    split; [exact Hlog | reflexivity].
  - destruct (resized_step w0 h0 s I Hl)
      as (s1 & Hd & I1 & Hl1 & _ & _ & _ & _ & Hcw & Hch & Hp & Hdpr & Hlog).
    destruct (IH w hh s1 I1 Hl1)
      as (s' & i & l & Hr & I' & Ht & Hrt & Hw & Hh & Hcw' & Hch' & Hp' & Hdpr'
          & Hlog' & Hf).
    exists s', i. eexists.
    cbn [app map run fst snd]. rewrite Hd.
    split; [exact Hr|]. split; [exact I'|].
    split; [exact Ht|]. split; [exact Hrt|].
    split; [exact Hw|]. split; [exact Hh|].
    split; [congruence|]. split; [congruence|].
    split; [congruence|]. split; [congruence|].
    split; [rewrite Hlog', Hlog, <- app_assoc; reflexivity|].
    rewrite filter_app, Hf. reflexivity.
Qed.

(** A burst of 'resize' events, however long, leaves the canvas and the
    program alone and exactly one timer pending; when that timer fires,
    [resize] runs once, for the box of the last event of the burst; a further
    timer tick finds nothing to run. *)
Theorem resize_debounced (boxes : list (Q * Q)) (w hh : Q) (s : State)
    (I : Inv s) (Hl : resizeListener (host s) = true) :
  exists s1 s2 i l,
    run (map (fun b => Resized (fst b) (snd b)) (boxes ++ [(w, hh)])) s = Some s1 /\
    timeouts (host s1) = [i] /\
    canvasWidth (host s1) = canvasWidth (host s) /\
    canvasHeight (host s1) = canvasHeight (host s) /\
    program (env s1) = program (env s) /\
    log (host s1) = log (host s) ++ l /\ filter isSetSize l = [] /\
    dispatch TimerFired s1 = Some s2 /\
    timeouts (host s2) = [] /\
    canvasWidth (host s2) = w * 0.5 * renderer_dpr (env s) /\
    canvasHeight (host s2) = hh * 0.5 * renderer_dpr (env s) /\
    resolution s2
      = Some (mkColor (w * 0.5 * renderer_dpr (env s))
                      (hh * 0.5 * renderer_dpr (env s))
                      (w * 0.5 * renderer_dpr (env s)
                       / (hh * 0.5 * renderer_dpr (env s)))) /\
    log (host s2) = log (host s1) ++ [SetSize (w * 0.5) (hh * 0.5)] /\
    dispatch TimerFired s2 = Some s2.
Proof.
  destruct (resized_burst boxes w hh s I Hl)
    as (s1 & i & l & Hr & I1 & Ht & _ & Hw & Hh & Hcw & Hch & Hp & Hdpr & Hlog & Hf).
  destruct I1 as [Hp1 _ _ _].
  destruct (program (env s1)) as [u|] eqn:Eu; [|congruence].
  exists s1. eexists. exists i, l.
  split; [exact Hr|]. split; [exact Ht|].
  split; [exact Hcw|]. split; [exact Hch|]. split; [rewrite Eu; exact Hp|].
  split; [exact Hlog|]. split; [exact Hf|].
  cbn [dispatch]. rewrite Ht.
  set (s1' := with_host (fun h => set_timeouts [] (timeoutNext h) h) s1).
  assert (Eu' : program (env s1') = Some u) by exact Eu.
  rewrite (resize_with_program s1' u Eu').
  split; [reflexivity|]. unfold resolution. plumb.
  cbn [option_map uResolution set_uResolution].
  rewrite Hw, Hh, Hdpr. repeat split.
Qed.

Lemma resize_debounced_witness :
  exists s1 s2 i l,
    run (map (fun b => Resized (fst b) (snd b))
             ([(700, 500); (640, 480)] ++ [(320, 240)])) s800 = Some s1 /\
    timeouts (host s1) = [i] /\
    canvasWidth (host s1) = canvasWidth (host s800) /\
    canvasHeight (host s1) = canvasHeight (host s800) /\
    program (env s1) = program (env s800) /\
    log (host s1) = log (host s800) ++ l /\ filter isSetSize l = [] /\
    dispatch TimerFired s1 = Some s2 /\
    timeouts (host s2) = [] /\
    canvasWidth (host s2) = 320 * 0.5 * renderer_dpr (env s800) /\
    canvasHeight (host s2) = 240 * 0.5 * renderer_dpr (env s800) /\
    resolution s2
      = Some (mkColor (320 * 0.5 * renderer_dpr (env s800))
                      (240 * 0.5 * renderer_dpr (env s800))
                      (320 * 0.5 * renderer_dpr (env s800)
                       / (240 * 0.5 * renderer_dpr (env s800)))) /\
    log (host s2) = log (host s1) ++ [SetSize (320 * 0.5) (240 * 0.5)] /\
    dispatch TimerFired s2 = Some s2.
Proof.
  assert (Hidle : released (idleHost 1 800 600)) by (repeat split).
  pose proof (mount_Inv defaultProps centre centre (idleHost 1 800 600) Hidle)
    as I.
  assert (Hl : resizeListener (host s800) = true) by (vm_compute; reflexivity).
  exact (resize_debounced [(700, 500); (640, 480)] 320 240 s800 I Hl).
Defined.

(* ================================================================== *)
(** ** After the cleanup *)

(** On a host where nothing of the effect is registered no callback runs:
    an event changes at most the container box the host reports. *)
Lemma dispatch_released (ev : Event) (s : State) :
  released (host s) ->
  exists s',
    dispatch ev s = Some s' /\ released (host s') /\
    log (host s') = log (host s) /\
    mousePos s' = mousePos s /\ targetMousePos s' = targetMousePos s /\
    env s' = env s /\
    canvasWidth (host s') = canvasWidth (host s) /\
    canvasHeight (host s') = canvasHeight (host s) /\
    contextLost (host s') = contextLost (host s).
Proof.
  intros (Hr & Ht & Hl & Hm & Hc).
  destruct ev as [t|w hh| |now rect e]; cbn [dispatch].
  - rewrite Hr. exists s. repeat split; assumption.
  - plumb. rewrite Hl. eexists. split; [reflexivity|]. plumb.
    repeat split; assumption.
  - rewrite Ht. exists s. repeat split; assumption.
  - rewrite Hm. exists s. repeat split; assumption.
Qed.

Lemma run_released (evs : list Event) :
  forall s, released (host s) ->
  exists s',
    run evs s = Some s' /\ released (host s') /\
    log (host s') = log (host s) /\
    mousePos s' = mousePos s /\ targetMousePos s' = targetMousePos s /\
    env s' = env s /\
    canvasWidth (host s') = canvasWidth (host s) /\
    canvasHeight (host s') = canvasHeight (host s) /\
    contextLost (host s') = contextLost (host s).
Proof.
  induction evs as [|ev evs IH]; intros s R.
  - exists s. repeat split; apply R.
  - destruct (dispatch_released ev s R)
      as (s1 & Hd & R1 & A1 & A2 & A3 & A4 & A5 & A6 & A7).
    destruct (IH s1 R1) as (s' & Hr & R' & B1 & B2 & B3 & B4 & B5 & B6 & B7).
    exists s'. cbn [run]. rewrite Hd.
    split; [exact Hr|]. split; [exact R'|].
    repeat split; congruence.
Qed.

(** Once the cleanup has run, nothing the host delivers reaches the effect:
    no call is made (so nothing is drawn and nothing is registered again),
    and the refs, the closure and the canvas stay as the cleanup left
    them. *)
Theorem quiet_after_teardown (p : Props) (mp tp : Point) (h : Host)
    (before after : list Event) (Hidle : released h) :
  exists s s1 s2,
    run before (mount p mp tp h) = Some s /\
    teardown s = Some s1 /\
    run after s1 = Some s2 /\
    log (host s2) = log (host s1) /\
    drawCount s2 = drawCount s1 /\
    released (host s2) /\
    mousePos s2 = mousePos s /\ targetMousePos s2 = targetMousePos s /\
    env s2 = env s /\
    canvasWidth (host s2) = canvasWidth (host s1) /\
    canvasHeight (host s2) = canvasHeight (host s1).
Proof.
  destruct (run_Inv before _ (mount_Inv p mp tp h Hidle)) as (s & Hr & I).
  destruct (teardown s) as [s1|] eqn:Ht.
  2:{ destruct (teardown_calls s) as (x & Hx & _). congruence. }
  destruct (teardown_released s s1 I Ht) as [R1 _].
  destruct (run_released after s1 R1)
    as (s2 & Hr2 & R2 & B1 & B2 & B3 & B4 & B5 & B6 & _).
  assert (E : mousePos s1 = mousePos s /\ targetMousePos s1 = targetMousePos s /\
              env s1 = env s).
  { clear - Ht. unfold teardown in Ht.
    destruct (mouseReact (props (env _))); plumb;
      destruct (canvasParent _); unfold removeChild in Ht; plumb;
      try (destruct (canvasParent _); [|discriminate]); cbn [option_map] in Ht;
      injection Ht as <-; repeat split. }
  destruct E as (E1 & E2 & E3).
  exists s, s1, s2. split; [exact Hr|]. split; [exact Ht|].
  split; [exact Hr2|]. split; [exact B1|].
  split; [unfold drawCount; now rewrite B1|].
  split; [exact R2|]. repeat split; congruence.
Qed.

Lemma quiet_after_teardown_witness :
  exists s s1 s2,
    run [Frame 40; Resized 640 480]
        (mount defaultProps centre centre (idleHost 1 800 600)) = Some s /\
    teardown s = Some s1 /\
    run [Frame 80; TimerFired; Resized 10 10;
         MouseMoved 200 (mkRect 0 0 10 10) (mkMouseEvent 5 5); Frame 120] s1
      = Some s2 /\
    log (host s2) = log (host s1) /\
    drawCount s2 = drawCount s1 /\
    released (host s2) /\
    mousePos s2 = mousePos s /\ targetMousePos s2 = targetMousePos s /\
    env s2 = env s /\
    canvasWidth (host s2) = canvasWidth (host s1) /\
    canvasHeight (host s2) = canvasHeight (host s1).
Proof.
  assert (Hidle : released (idleHost 1 800 600)) by (repeat split).
  exact (quiet_after_teardown defaultProps centre centre (idleHost 1 800 600)
           [Frame 40; Resized 640 480]
           [Frame 80; TimerFired; Resized 10 10;
            MouseMoved 200 (mkRect 0 0 10 10) (mkMouseEvent 5 5); Frame 120]
           Hidle).
Defined.

(* ================================================================== *)
(** ** The pointer throttle over a sequence of events *)

Lemma MOUSE_THROTTLE_pos : 0 < MOUSE_THROTTLE.
Proof. reflexivity. Qed.

(** Whatever pointer events arrive, and in whatever order of times, any two
    accepted ones are at least 50 ms apart, and the first accepted one is at
    least 50 ms after the [lastMouseUpdate] the handler started with.  As
    [lastMouseUpdate] starts at 0 in every run of the effect, no event
    stamped before 50 ms is ever accepted. *)
Theorem pointer_samples_spaced (l : list (Q * Rect * MouseEvent)) :
  (forall s,
     StronglySorted (fun a b => a + MOUSE_THROTTLE <= b) (acceptedAt l s) /\
     Forall (fun t => lastMouseUpdate (env s) + MOUSE_THROTTLE <= t)
            (acceptedAt l s)) /\
  (forall p mp tp h,
     Forall (fun t => MOUSE_THROTTLE <= t) (acceptedAt l (mount p mp tp h))).
Proof.
  assert (G : forall s,
     StronglySorted (fun a b => a + MOUSE_THROTTLE <= b) (acceptedAt l s) /\
     Forall (fun t => lastMouseUpdate (env s) + MOUSE_THROTTLE <= t)
            (acceptedAt l s)).
  { induction l as [|[[now rect] e] l IH]; intro s; cbn [acceptedAt].
    - split; constructor.
    - destruct (Qlt_le_dec (now - lastMouseUpdate (env s)) MOUSE_THROTTLE) as [H|H].
      + rewrite (handleMouseMove_drop _ _ _ _ H).
        rewrite (proj2 (Qeq_bool_iff _ _) (Qeq_refl _)). apply IH.
      + apply Qle_not_lt in H. rewrite (handleMouseMove_accept _ _ _ _ H).
        match goal with |- context [acceptedAt l ?x] => set (s' := x) end.
        assert (El : lastMouseUpdate (env s') = now) by reflexivity.
        rewrite El.
        pose proof MOUSE_THROTTLE_pos as HT.
        assert (Hne : Qeq_bool now (lastMouseUpdate (env s)) = false).
        { destruct (Qeq_bool now (lastMouseUpdate (env s))) eqn:E; [|reflexivity].
          apply Qeq_bool_iff in E. exfalso. apply H. rewrite E. lra. }
        rewrite Hne. cbn [app].
        destruct (IH s') as [Hs Hall]. rewrite El in Hall.
        split.
        * constructor; assumption.
        * constructor; [apply Qnot_lt_le in H; lra|].
          eapply Forall_impl; [|exact Hall]. cbn beta. intros t Ht.
          apply Qnot_lt_le in H. lra. }
  split; [exact G|].
  intros p mp tp h. destruct (G (mount p mp tp h)) as [_ Hall].
  assert (E0 : lastMouseUpdate (env (mount p mp tp h)) = 0).
  { unfold mount, mount_surface, resize. destruct (mouseReact p); reflexivity. }
  rewrite E0 in Hall. eapply Forall_impl; [|exact Hall].
  cbn beta. intros t Ht. lra.
Qed.

(* ================================================================== *)
(** ** The pointer stays in the unit square *)

Lemma lerp_unit (c t : Q) : 0 <= c <= 1 -> 0 <= t <= 1 -> 0 <= lerp c t <= 1.
Proof. unfold lerp. intros [? ?] [? ?]. split; lra. Qed.

Lemma ratio_unit (a w : Q) : 0 < w -> 0 <= a -> a <= w -> 0 <= a / w /\ a / w <= 1.
Proof.
  intros Hw H0 H1. split.
  - apply Qle_shift_div_l; [exact Hw | lra].
  - apply Qle_shift_div_r; [exact Hw | lra].
Qed.

(** What one callback does to the refs and to the draws. *)
Lemma dispatch_refs (ev : Event) (s s' : State) :
  dispatch ev s = Some s' ->
  exists l,
    log (host s') = log (host s) ++ l /\
    match ev with
    | MouseMoved now rect e =>
        draws l = [] /\ mousePos s' = mousePos s /\
        (targetMousePos s' = targetMousePos s \/
         targetMousePos s'
           = mkPoint ((clientX e - rect_left rect) / rect_width rect)
                     (1.0 - (clientY e - rect_top rect) / rect_height rect))
    | _ =>
        targetMousePos s' = targetMousePos s /\
        ((draws l = [] /\ mousePos s' = mousePos s) \/
         (exists u, draws l = [u] /\ uMouse u = mousePos s' /\
            pt_x (mousePos s')
              = lerp (pt_x (mousePos s)) (pt_x (targetMousePos s)) /\
            pt_y (mousePos s')
              = lerp (pt_y (mousePos s)) (pt_y (targetMousePos s))))
    end.
Proof.
  intro H. destruct ev as [t|w hh| |now rect e]; cbn [dispatch] in H.
  - destruct (rafPending (host s)) as [|i rest] eqn:Er.
    { injection H as <-. exists []. rewrite app_nil_r.
      split; [reflexivity|]. split; [reflexivity|]. left. split; reflexivity. }
    set (s1 := with_host (fun h => set_raf rest (rafNext h) h) s) in *.
    destruct (Qlt_le_dec (t - lastFrameTime (env s1)) FRAME_DURATION) as [Hlt|Hge].
    + rewrite (update_skip _ _ Hlt) in H. injection H as <-.
      exists [RequestAnimationFrame (rafNext (host s1))].
      split; [exact (rescheduled_log s1)|]. split; [reflexivity|].
      left. split; reflexivity.
    + apply Qle_not_lt in Hge.
      destruct (program (env s1)) as [u|] eqn:Eu.
      * rewrite (update_draw _ _ _ Eu Hge) in H. injection H as <-.
        eexists [RequestAnimationFrame (rafNext (host s1)); Render _].
        split; [unfold rescheduled; plumb; rewrite <- app_assoc; reflexivity|].
        split; [reflexivity|]. right. eexists. repeat split.
      * exfalso. apply Qnot_lt_le, ltb_ge in Hge.
        unfold update in H. plumb. rewrite Hge, Eu in H. discriminate.
  - plumb. destruct (resizeListener (host s)).
    + injection H as <-. unfold handleResize. plumb.
      destruct (resizeTimeout (env s)) as [j|] eqn:Ej; plumb;
        [exists [ClearTimeout (Some j); SetTimeout (timeoutNext (host s))]
        |exists [ClearTimeout None; SetTimeout (timeoutNext (host s))]];
        (split; [rewrite <- app_assoc; reflexivity|]);
        (split; [reflexivity|]); left; split; reflexivity.
    + injection H as <-. exists []. rewrite app_nil_r.
      split; [reflexivity|]. split; [reflexivity|]. left. split; reflexivity.
  - destruct (timeouts (host s)) as [|i rest] eqn:Et.
    { injection H as <-. exists []. rewrite app_nil_r.
      split; [reflexivity|]. split; [reflexivity|]. left. split; reflexivity. }
    injection H as <-.
    match goal with |- context [resize ?x] => set (s1 := x) end.
    destruct (program (env s1)) as [u|] eqn:Eu.
    + rewrite (resize_with_program s1 u Eu). plumb.
      eexists [SetSize _ _]. split; [reflexivity|]. split; [reflexivity|].
      left. split; reflexivity.
    + rewrite (resize_without_program s1 Eu). plumb.
      eexists [SetSize _ _]. split; [reflexivity|]. split; [reflexivity|].
      left. split; reflexivity.
  - exists []. rewrite app_nil_r. split; [|split; [reflexivity|]].
    + destruct (mouseMoveListener (host s)); injection H as <-; [|reflexivity].
      unfold handleMouseMove. destruct (Num.ltb _ _); reflexivity.
    + destruct (mouseMoveListener (host s)); injection H as <-;
        [|split; [reflexivity | now left]].
      unfold handleMouseMove. destruct (Num.ltb _ _);
        (split; [reflexivity|]); [now left | now right].
Qed.

Lemma run_unit (evs : list Event) :
  Forall insideContainer evs ->
  forall s, inUnit (mousePos s) -> inUnit (targetMousePos s) -> Inv s ->
  exists s' l,
    run evs s = Some s' /\
    inUnit (mousePos s') /\ inUnit (targetMousePos s') /\
    log (host s') = log (host s) ++ l /\
    Forall (fun u => inUnit (uMouse u)) (draws l).
Proof.
  intro Hev.
  induction evs as [|ev evs IH]; intros s Hmp Htp I.
  - exists s, []. rewrite app_nil_r.
    split; [reflexivity|]. split; [exact Hmp|]. split; [exact Htp|].
    split; [reflexivity | constructor].
  - inversion Hev as [|? ? Hin Hev']; subst.
    destruct (dispatch_Inv ev s I) as (s1 & Hd & I1).
    destruct (dispatch_refs ev s s1 Hd) as (l1 & Hlog1 & Hcase).
    assert (H1 : inUnit (mousePos s1) /\ inUnit (targetMousePos s1) /\
                 Forall (fun u => inUnit (uMouse u)) (draws l1)).
    { destruct ev as [t|w hh| |now rect e].
      1,2,3: destruct Hcase as [Ht [[Hd0 Hm] | (u & Hd1 & Hu & Hx & Hy)]];
        rewrite Ht;
        [rewrite Hm, Hd0; split; [exact Hmp | split; [exact Htp | constructor]]
        |assert (Hu1 : inUnit (mousePos s1))
           by (split; [rewrite Hx | rewrite Hy]; apply lerp_unit;
               first [apply Hmp | apply Htp]);
         split; [exact Hu1 | split; [exact Htp|]];
         apply (draws_single _ u); [exact Hd1 | now rewrite Hu]].
      destruct Hcase as (Hd0 & Hm & [Ht|Ht]); rewrite Hm, Hd0, Ht.
      - split; [exact Hmp | split; [exact Htp | constructor]].
      - split; [exact Hmp | split; [|constructor]].
        destruct Hin as (Hw & Hh & Hx0 & Hx1 & Hy0 & Hy1).
        unfold inUnit. cbn [pt_x pt_y].
        destruct (ratio_unit (clientX e - rect_left rect) (rect_width rect) Hw)
          as [A B]; [lra | lra |].
        destruct (ratio_unit (clientY e - rect_top rect) (rect_height rect) Hh)
          as [C D]; [lra | lra |].
        split; split; lra. }
    destruct H1 as (Hmp1 & Htp1 & Hf1).
    destruct (IH Hev' s1 Hmp1 Htp1 I1) as (s' & l2 & Hr & Hmp' & Htp' & Hlog2 & Hf2).
    exists s', (l1 ++ l2). cbn [run]. rewrite Hd.
    split; [exact Hr|]. split; [exact Hmp'|]. split; [exact Htp'|].
    split; [rewrite Hlog2, Hlog1, app_assoc; reflexivity|].
    rewrite draws_app. apply Forall_app. split; assumption.
Qed.


(** When the refs start in the unit square and every pointer event lies
    within the container's rectangle, the smoothed position and its target
    stay in the unit square, and so does [uMouse] at every draw. *)
Theorem pointer_in_unit_square (p : Props) (mp tp : Point) (h : Host)
    (evs : list Event)
    (Hidle : released h) (Hmp : inUnit mp) (Htp : inUnit tp)
    (Hev : Forall insideContainer evs) :
  exists s l,
    run evs (mount p mp tp h) = Some s /\
    inUnit (mousePos s) /\ inUnit (targetMousePos s) /\
    log (host s) = log (host (mount p mp tp h)) ++ l /\
    Forall (fun u => inUnit (uMouse u)) (draws l).
Proof.
  pose proof (mount_Inv p mp tp h Hidle) as I.
  destruct (mount_refs p mp tp h) as (Emp & Etp & _).
  apply (run_unit evs Hev); [rewrite Emp | rewrite Etp |]; assumption.
Qed.

Lemma pointer_in_unit_square_witness :
  exists s l,
    run [MouseMoved 100 (mkRect 10 20 800 600) (mkMouseEvent 810 20); Frame 40;
         MouseMoved 200 (mkRect 10 20 800 600) (mkMouseEvent 10 620); Frame 80]
        (mount defaultProps centre centre (idleHost 1 800 600)) = Some s /\
    inUnit (mousePos s) /\ inUnit (targetMousePos s) /\
    log (host s)
      = log (host (mount defaultProps centre centre (idleHost 1 800 600))) ++ l /\
    Forall (fun u => inUnit (uMouse u)) (draws l).
Proof.
  assert (Hidle : released (idleHost 1 800 600)) by (repeat split).
  assert (Hc : inUnit centre) by (repeat split; vm_compute; discriminate).
  apply (pointer_in_unit_square defaultProps centre centre (idleHost 1 800 600)
           _ Hidle Hc Hc).
  repeat constructor; vm_compute; discriminate.
Defined.

(* ================================================================== *)
(** ** The uniforms follow the props and the canvas *)

(** What one callback does to the program: the colour, the amplitude and the
    speed stay; the resolution either stays, with the canvas size, or is
    rewritten from the new canvas size; a draw, if any, uses the uniforms as
    the callback leaves them. *)
Lemma dispatch_program (ev : Event) (s s' : State) (u : Uniforms) :
  dispatch ev s = Some s' -> program (env s) = Some u ->
  exists u' l,
    program (env s') = Some u' /\
    uColor u' = uColor u /\ uAmplitude u' = uAmplitude u /\
    uSpeed u' = uSpeed u /\
    ((uResolution u' = uResolution u /\
      canvasWidth (host s') = canvasWidth (host s) /\
      canvasHeight (host s') = canvasHeight (host s)) \/
     uResolution u'
       = mkColor (canvasWidth (host s')) (canvasHeight (host s'))
                 (canvasWidth (host s') / canvasHeight (host s'))) /\
    log (host s') = log (host s) ++ l /\
    (draws l = [] \/ draws l = [u']).
Proof.
  intros H Hu. destruct ev as [t|w hh| |now rect e]; cbn [dispatch] in H.
  - destruct (rafPending (host s)) as [|i rest] eqn:Er.
    { injection H as <-. exists u, []. rewrite app_nil_r.
      repeat split; try assumption; now left. }
    set (s1 := with_host (fun h => set_raf rest (rafNext h) h) s) in *.
    assert (Eu : program (env s1) = Some u) by exact Hu.
    destruct (Qlt_le_dec (t - lastFrameTime (env s1)) FRAME_DURATION) as [Hlt|Hge].
    + rewrite (update_skip _ _ Hlt) in H. injection H as <-.
      exists u, [RequestAnimationFrame (rafNext (host s1))].
      split; [exact Hu|]. split; [reflexivity|]. split; [reflexivity|].
      split; [reflexivity|]. split; [left; repeat split|].
      split; [exact (rescheduled_log s1) | now left].
    + apply Qle_not_lt in Hge.
      rewrite (update_draw _ _ _ Eu Hge) in H. injection H as <-.
      eexists. eexists [RequestAnimationFrame (rafNext (host s1)); Render _].
      split; [reflexivity|]. split; [reflexivity|]. split; [reflexivity|].
      split; [reflexivity|]. split; [left; repeat split|].
      split; [unfold rescheduled; plumb; rewrite <- app_assoc; reflexivity|].
      right. reflexivity.
  - plumb. destruct (resizeListener (host s)).
    + injection H as <-. unfold handleResize. plumb.
      destruct (resizeTimeout (env s)) as [j|] eqn:Ej; plumb;
        exists u;
        [exists [ClearTimeout (Some j); SetTimeout (timeoutNext (host s))]
        |exists [ClearTimeout None; SetTimeout (timeoutNext (host s))]];
        (split; [exact Hu|]); (split; [reflexivity|]); (split; [reflexivity|]);
        (split; [reflexivity|]); (split; [left; repeat split|]);
        (split; [rewrite <- app_assoc; reflexivity | now left]).
    + injection H as <-. exists u, []. rewrite app_nil_r.
      repeat split; try assumption; now left.
  - destruct (timeouts (host s)) as [|i rest] eqn:Et.
    { injection H as <-. exists u, []. rewrite app_nil_r.
      repeat split; try assumption; now left. }
    injection H as <-.
    match goal with |- context [resize ?x] => set (s1 := x) end.
    assert (Eu : program (env s1) = Some u) by exact Hu.
    rewrite (resize_with_program s1 u Eu). plumb.
    eexists. eexists [SetSize _ _].
    split; [reflexivity|]. split; [reflexivity|]. split; [reflexivity|].
    split; [reflexivity|]. split; [right; reflexivity|].
    split; [reflexivity | now left].
  - exists u, []. rewrite app_nil_r.
    destruct (mouseMoveListener (host s)); injection H as <-.
    + unfold handleMouseMove. destruct (Num.ltb _ _);
        repeat split; try assumption; now left.
    + repeat split; try assumption; now left.
Qed.

Lemma faithful_initial (p : Props) (x y : Q) (m : Point) :
  faithful p (mkUniforms 0 (color p) (mkColor x y (x / y)) m
                         (amplitude p) (speed p)).
Proof. repeat split. Qed.

Lemma run_faithful (p : Props) (evs : list Event) :
  forall s u,
  program (env s) = Some u -> faithful p u ->
  uResolution u = mkColor (canvasWidth (host s)) (canvasHeight (host s))
                          (canvasWidth (host s) / canvasHeight (host s)) ->
  forall s', run evs s = Some s' ->
  exists u' l,
    program (env s') = Some u' /\ faithful p u' /\
    uResolution u'
      = mkColor (canvasWidth (host s')) (canvasHeight (host s'))
                (canvasWidth (host s') / canvasHeight (host s')) /\
    log (host s') = log (host s) ++ l /\
    Forall (faithful p) (draws l).
Proof.
  induction evs as [|ev evs IH]; intros s u Hu Hf Hres s' Hr; cbn [run] in Hr.
  - injection Hr as <-. exists u, []. rewrite app_nil_r.
    repeat split; try assumption; try apply Hf. constructor.
  - destruct (dispatch ev s) as [s1|] eqn:Hd; [|discriminate].
    destruct (dispatch_program ev s s1 u Hd Hu)
      as (u1 & l1 & Hu1 & Hc & Ha & Hs & Hcase & Hlog1 & Hdr).
    destruct Hf as (Fc & Fa & Fs & Fb).
    assert (Hres1 : uResolution u1
              = mkColor (canvasWidth (host s1)) (canvasHeight (host s1))
                        (canvasWidth (host s1) / canvasHeight (host s1))).
    { destruct Hcase as [(E & Ew & Eh) | E]; [|exact E].
      rewrite E, Ew, Eh. exact Hres. }
    assert (Hf1 : faithful p u1).
    { repeat split; try congruence. rewrite Hres1. reflexivity. }
    destruct (IH s1 u1 Hu1 Hf1 Hres1 s' Hr) as (u' & l2 & Hu' & Hf' & Hres' & Hlog2 & Hd2).
    exists u', (l1 ++ l2).
    split; [exact Hu'|]. split; [exact Hf'|]. split; [exact Hres'|].
    split; [rewrite Hlog2, Hlog1, app_assoc; reflexivity|].
    rewrite draws_app. apply Forall_app. split; [|exact Hd2].
    destruct Hdr as [E|E]; rewrite E; [constructor|].
    constructor; [exact Hf1 | constructor].
Qed.

(** Throughout a run of the effect the program's colour, amplitude and speed
    are those of the props, the resolution uniform is the canvas size with
    its quotient, and every draw call was made with such uniforms: a resize
    is always seen by the next draw, and nothing else moves these values. *)
Theorem uniforms_follow_props_and_canvas (p : Props) (mp tp : Point) (h : Host)
    (evs : list Event) (Hidle : released h) :
  exists s u l,
    run evs (mount p mp tp h) = Some s /\
    program (env s) = Some u /\
    uColor u = color p /\ uAmplitude u = amplitude p /\ uSpeed u = speed p /\
    uResolution u
      = mkColor (canvasWidth (host s)) (canvasHeight (host s))
                (canvasWidth (host s) / canvasHeight (host s)) /\
    log (host s) = log (host (mount p mp tp h)) ++ l /\
    Forall (faithful p) (draws l).
Proof.
  destruct (run_Inv evs _ (mount_Inv p mp tp h Hidle)) as (s & Hr & _).
  destruct (mount_refs p mp tp h) as (_ & _ & Hu & _).
  assert (Hcv : canvasWidth (host (mount p mp tp h))
                = canvasWidth (host (mount_surface p mp tp h)) /\
                canvasHeight (host (mount p mp tp h))
                = canvasHeight (host (mount_surface p mp tp h))).
  { destruct p as [pc ps pa [|]]; split; vm_compute; reflexivity. }
  destruct Hcv as [Ew Eh].
  edestruct (run_faithful p evs _ _ Hu) as (u' & l & Hu' & Hf' & Hres' & Hlog & Hd);
    [| |exact Hr|].
  - apply faithful_initial.
  - cbn [uResolution]. rewrite Ew, Eh. reflexivity.
  - exists s, u', l. destruct Hf' as (A & B & C & _).
    repeat split; assumption.
Qed.

Lemma uniforms_follow_props_and_canvas_witness :
  exists s u l,
    run [Frame 40; Resized 640 480; TimerFired; Frame 80]
        (mount defaultProps centre centre (idleHost 2 800 600)) = Some s /\
    program (env s) = Some u /\
    uColor u = color defaultProps /\ uAmplitude u = amplitude defaultProps /\
    uSpeed u = speed defaultProps /\
    uResolution u
      = mkColor (canvasWidth (host s)) (canvasHeight (host s))
                (canvasWidth (host s) / canvasHeight (host s)) /\
    log (host s)
      = log (host (mount defaultProps centre centre (idleHost 2 800 600))) ++ l /\
    Forall (faithful defaultProps) (draws l).
Proof.
  assert (Hidle : released (idleHost 2 800 600)) by (repeat split).
  exact (uniforms_follow_props_and_canvas defaultProps centre centre
           (idleHost 2 800 600)
           [Frame 40; Resized 640 480; TimerFired; Frame 80] Hidle).
Defined.

(* ================================================================== *)
(** ** The size of the canvas *)

Lemma min_le_l (a b : Q) : Num.min a b <= a.
Proof.
  unfold Num.min. destruct (Num.ltb b a) eqn:E; [|lra].
  apply ltb_lt in E. lra.
Qed.

Lemma min_le_r (a b : Q) : Num.min a b <= b.
Proof.
  unfold Num.min. destruct (Num.ltb b a) eqn:E; [lra|].
  apply ltb_ge in E. exact E.
Qed.

Lemma mount_dpr (p : Props) (mp tp : Point) (h : Host) :
  renderer_dpr (env (mount p mp tp h)) = Num.min (devicePixelRatio h) 1.5.
Proof.
  unfold mount, mount_surface, resize.
  destruct (mouseReact p); plumb; reflexivity.
Qed.

(** The renderer's pixel ratio is the device's, capped at 1.5, for the whole
    run; so whenever [resize] runs on a box of non-negative size, at mount or
    later, neither side of the canvas exceeds 0.75 times the side of the
    container, nor 0.5 times that side times the device pixel ratio. *)
Theorem canvas_within_budget (p : Props) (mp tp : Point) (h : Host)
    (evs : list Event) (s : State)
    (Hrun : run evs (mount p mp tp h) = Some s)
    (Hw : 0 <= offsetWidth (host s)) (Hh : 0 <= offsetHeight (host s)) :
  renderer_dpr (env s) = Num.min (devicePixelRatio h) 1.5 /\
  canvasWidth (host (resize s)) <= 0.75 * offsetWidth (host s) /\
  canvasHeight (host (resize s)) <= 0.75 * offsetHeight (host s) /\
  canvasWidth (host (resize s))
    <= 0.5 * offsetWidth (host s) * devicePixelRatio h /\
  canvasHeight (host (resize s))
    <= 0.5 * offsetHeight (host s) * devicePixelRatio h.
Proof.
  destruct (run_keeps evs _ _ Hrun) as (_ & _ & _ & _ & _ & _ & _ & Hd).
  rewrite mount_dpr in Hd.
  pose proof (min_le_l (devicePixelRatio h) 1.5) as H1.
  pose proof (min_le_r (devicePixelRatio h) 1.5) as H2.
  assert (Ew : canvasWidth (host (resize s))
               = offsetWidth (host s) * 0.5 * renderer_dpr (env s)).
  { destruct (program (env s)) as [u|] eqn:E.
    - rewrite (resize_with_program s u E). reflexivity.
    - rewrite (resize_without_program s E). reflexivity. }
  assert (Eh : canvasHeight (host (resize s))
               = offsetHeight (host s) * 0.5 * renderer_dpr (env s)).
  { destruct (program (env s)) as [u|] eqn:E.
    - rewrite (resize_with_program s u E). reflexivity.
    - rewrite (resize_without_program s E). reflexivity. }
  rewrite Ew, Eh, Hd. split; [reflexivity|].
  set (d := Num.min (devicePixelRatio h) 1.5) in *.
  set (w := offsetWidth (host s)) in *. set (hh := offsetHeight (host s)) in *.
  repeat split; nra.
Qed.

Lemma canvas_within_budget_witness :
  exists s,
    run [Resized 1000 500; TimerFired]
        (mount defaultProps centre centre (idleHost 3 800 600)) = Some s /\
    canvasWidth (host (resize s)) <= 0.75 * 1000 /\
    canvasHeight (host (resize s)) <= 0.75 * 500.
Proof.
  destruct (run [Resized 1000 500; TimerFired]
              (mount defaultProps centre centre (idleHost 3 800 600)))
    as [s|] eqn:E; [|vm_compute in E; discriminate].
  exists s. split; [reflexivity|].
  assert (Ew : offsetWidth (host s) = 1000)
    by (vm_compute in E; injection E as <-; reflexivity).
  assert (Eh : offsetHeight (host s) = 500)
    by (vm_compute in E; injection E as <-; reflexivity).
  destruct (canvas_within_budget defaultProps centre centre (idleHost 3 800 600)
              [Resized 1000 500; TimerFired] s E) as (_ & H1 & H2 & _).
  - rewrite Ew. vm_compute. discriminate.
  - rewrite Eh. vm_compute. discriminate.
  - rewrite Ew in H1. rewrite Eh in H2. split; assumption.
Defined.

(* ================================================================== *)
(** ** Runs of the effect, one after the other *)

Lemma Running_Inv (p : Props) (s : State) : Running p s -> Inv s.
Proof.
  intros ((i & Hr & Ha) & Ht & _ & Hm & _ & _ & Hp & Hpr). constructor.
  - exact Hp.
  - right. exists i. split; assumption.
  - exact Ht.
  - rewrite Hm, Hpr. auto.
Qed.

Lemma run_Running (p : Props) (mp tp : Point) (h : Host) (evs : list Event) :
  released h ->
  exists s, run evs (mount p mp tp h) = Some s /\ Running p s.
Proof.
  intro Hidle.
  destruct (run_Inv evs _ (mount_Inv p mp tp h Hidle)) as (s & Hr & [Ip Ir It Im]).
  destruct (run_keeps evs _ _ Hr) as (K1 & K2 & K3 & K4 & _ & _ & K7 & _).
  destruct (mount_host p mp tp h) as (M1 & M3 & M4 & M7 & M2).
  destruct (mount_refs p mp tp h) as (_ & _ & _ & M2').
  pose proof (run_pending evs _ _ Hr (mount_pending p mp tp h)) as Hne.
  exists s. split; [exact Hr|]. unfold Running.
  split; [destruct Ir as [E|E]; [congruence | exact E]|].
  split; [exact It|]. split; [congruence|].
  split.
  { rewrite K2. destruct (mouseReact p) eqn:E.
    - now apply M2.
    - rewrite (M2' eq_refl). apply Hidle. }
  split; [congruence|]. split; [congruence|]. split; [exact Ip | congruence].
Qed.

Lemma teardown_refs (s s' : State) :
  teardown s = Some s' ->
  mousePos s' = mousePos s /\ targetMousePos s' = targetMousePos s /\
  devicePixelRatio (host s') = devicePixelRatio (host s).
Proof.
  destruct s as [mp tp [[pc ps pa pm] dpr pg rt ai lf lm]
                      [r ow oh rp rn tm tn rl ml cp cw ch sw sh lx cl lg]].
  destruct pm, ai, rt, cp, lx; vm_compute;
    intro H; injection H as <-; repeat split.
Qed.

(** A change of props while the effect runs: the cleanup and the new run of
    the body throw nothing; the new run is running with the new props; the
    two refs are carried over as they are and the new program starts with
    [uMouse] at the carried position, while the frame clock, the throttle
    clock and [uTime] start again from 0. *)
Theorem rerun_carries_refs (p p' : Props) (s : State) (Hrun : Running p s) :
  exists s',
    rerun p' s = Some s' /\
    Running p' s' /\
    mousePos s' = mousePos s /\ targetMousePos s' = targetMousePos s /\
    lastFrameTime (env s') = 0 /\ lastMouseUpdate (env s') = 0 /\
    resizeTimeout (env s') = None /\
    exists u, program (env s') = Some u /\
      uTime u = 0 /\ uMouse u = mkPoint (pt_x (mousePos s)) (pt_y (mousePos s)) /\
      uColor u = color p' /\ uAmplitude u = amplitude p' /\ uSpeed u = speed p'.
Proof.
  pose proof (Running_Inv p s Hrun) as I.
  destruct (teardown_calls s) as (s1 & Ht & _).
  destruct (teardown_released s s1 I Ht) as [R1 _].
  destruct (teardown_refs s s1 Ht) as (Em & Et & _).
  unfold rerun. rewrite Ht. eexists. split; [reflexivity|].
  destruct (run_Running p' (mousePos s1) (targetMousePos s1) (host s1) [] R1)
    as (s' & Hr & Hrun').
  cbn [run] in Hr. injection Hr as <-.
  split; [exact Hrun'|].
  destruct (mount_refs p' (mousePos s1) (targetMousePos s1) (host s1))
    as (Mm & Mt & Mu & _).
  split; [congruence|]. split; [congruence|].
  split; [apply mount_lastFrameTime|].
  split; [unfold mount, mount_surface, resize; destruct (mouseReact p'); reflexivity|].
  split; [unfold mount, mount_surface, resize; destruct (mouseReact p'); reflexivity|].
  eexists. split; [exact Mu|]. rewrite Em. repeat split.
Qed.

Lemma rerun_carries_refs_witness :
  exists s',
    rerun (mkProps (mkColor 1 0 0) 2 0.5 false) sMoved = Some s' /\
    Running (mkProps (mkColor 1 0 0) 2 0.5 false) s' /\
    mousePos s' = mousePos sMoved /\ targetMousePos s' = targetMousePos sMoved.
Proof.
  assert (Hidle : released (idleHost 1 800 600)) by (repeat split).
  destruct (run_Running defaultProps centre centre (idleHost 1 800 600)
              [MouseMoved 100 (mkRect 0 0 800 600) (mkMouseEvent 200 450)] Hidle)
    as (s & Hr & Hs).
  assert (E : s = sMoved) by (vm_compute in Hr; injection Hr as <-; reflexivity).
  rewrite E in Hs.
  destruct (rerun_carries_refs defaultProps (mkProps (mkColor 1 0 0) 2 0.5 false)
              sMoved Hs) as (s' & H1 & H2 & H3 & H4 & _).
  exists s'. split; [exact H1 | split; [exact H2 | split; [exact H3 | exact H4]]].
Defined.




(* ================================================================== *)
(** ** The time uniform of the draws *)

Lemma run_frames_times (ts : list Q) :
  forall s, program (env s) <> None -> rafPending (host s) <> [] ->
  exists s' l,
    run (map Frame ts) s = Some s' /\
    log (host s') = log (host s) ++ l /\
    map uTime (draws l)
      = map (fun t => t * 0.001) (gateTrace (lastFrameTime (env s)) ts).
Proof.
  induction ts as [|t ts IH]; intros s Hp Hr.
  - exists s, []. rewrite app_nil_r. repeat split.
  - destruct (program (env s)) as [u|] eqn:Eu; [clear Hp | congruence].
    destruct (rafPending (host s)) as [|i rest] eqn:Er; [congruence | clear Hr].
    cbn [map run dispatch gateTrace]. rewrite Er.
    set (s1 := with_host (fun h => set_raf rest (rafNext h) h) s).
    assert (Eu1 : program (env s1) = Some u) by exact Eu.
    assert (El : lastFrameTime (env s1) = lastFrameTime (env s)) by reflexivity.
    destruct (Num.ltb (t - lastFrameTime (env s)) FRAME_DURATION) eqn:E.
    + apply ltb_lt in E. rewrite <- El in E. rewrite (update_skip _ _ E).
      destruct (IH (rescheduled s1)) as (s' & l & Hrun & Hlog & Ht).
      * cbn. rewrite Eu. discriminate.
      * unfold rescheduled. plumb. destruct rest; discriminate.
      * exists s', (RequestAnimationFrame (rafNext (host s1)) :: l).
        split; [exact Hrun|].
        split; [rewrite Hlog, rescheduled_log; cbn [app];
                rewrite <- app_assoc; reflexivity|].
        exact Ht.
    + apply ltb_ge in E. rewrite <- El in E. apply Qle_not_lt in E.
      rewrite (update_draw _ _ _ Eu1 E).
      match goal with |- context [run (map Frame ts) ?x] => set (s2 := x) end.
      destruct (IH s2) as (s' & l & Hrun & Hlog & Ht).
      * discriminate.
      * unfold s2, rescheduled. plumb. destruct rest; discriminate.
      * eexists s', (RequestAnimationFrame (rafNext (host s1)) :: Render _ :: l).
        split; [exact Hrun|].
        split; [rewrite Hlog; unfold s2, rescheduled; plumb;
                rewrite <- !app_assoc; reflexivity|].
        cbn [draws map uTime set_uTime]. f_equal. exact Ht.
Qed.

(** The draws of a run of animation frames carry, in order, the timestamps
    of the callbacks that drew, in seconds: the k-th draw has [uTime] equal
    to 0.001 times the k-th timestamp of [drawnAt]. *)
Theorem draw_times (p : Props) (mp tp : Point) (h : Host) (ts : list Q) :
  exists s l,
    run (map Frame ts) (mount p mp tp h) = Some s /\
    log (host s) = log (host (mount p mp tp h)) ++ l /\
    map uTime (draws l)
      = map (fun t => t * 0.001) (drawnAt ts (mount p mp tp h)).
Proof.
  rewrite drawnAt_gate by (apply mount_program || apply mount_pending).
  apply run_frames_times; [apply mount_program | apply mount_pending].
Qed.
